(** * PERF/core.py: command-line driver of the SSR detector

    A shallow embedding of [src/PERF/core.py] (functions [getArgs],
    [ssr_native] and [main]) together with the properties of the
    specification that concern it.

    Conventions of the embedding
    - Python [int] is unbounded: it is [Z].
    - Python [str] is [string]; the text handled here (option values and the
      lines of a units file) is taken to be ASCII.
    - The [dict] [unit_cutoff] is a [gmap Z Z].
    - Exceptions are values of [Exn]; a computation either returns or raises.
    - Calls that leave [core.py] ([generate_repeats], [build_rep_set],
      [fasta_ssrs], [fastq_ssrs], [annotate], [analyse]) and writes to
      [sys.stderr] are recorded, in program order, in a log.  The helper
      modules are not part of the embedding: their calls are taken to return.
    - [argparse]'s [parse_args] is the input: the namespace it returns is the
      initial value of the shared, mutable [args] object. *)

From Stdlib Require Import ZArith String Ascii List Lia DecimalString.
From stdpp Require Import base gmap strings list.

Open Scope string_scope.
Open Scope Z_scope.

(** ** Python text primitives *)

Module PyStr.

(** [str.isspace] on ASCII: TAB, LF, VT, FF, CR, FS, GS, RS, US and space. *)
Definition is_space (c : ascii) : bool :=
  let n := nat_of_ascii c in
  ((9 <=? n)%nat && (n <=? 13)%nat) || ((28 <=? n)%nat && (n <=? 32)%nat).

Definition is_digit (c : ascii) : bool :=
  let n := nat_of_ascii c in (48 <=? n)%nat && (n <=? 57)%nat.

Definition digit_val (c : ascii) : Z := Z.of_nat (nat_of_ascii c) - 48.

Fixpoint lstrip (s : string) : string :=
  match s with
  | String c s' => if is_space c then lstrip s' else s
  | EmptyString => EmptyString
  end.

Fixpoint rstrip (s : string) : string :=
  match s with
  | String c s' =>
      match rstrip s' with
      | EmptyString => if is_space c then EmptyString else String c EmptyString
      | r => String c r
      end
  | EmptyString => EmptyString
  end.

(** [s.strip()] *)
Definition strip (s : string) : string := rstrip (lstrip s).

(** [s.split()]: the maximal runs of non-whitespace characters, in order.
    [cur] is the run being read. *)
Fixpoint split_from (cur : string) (s : string) : list string :=
  match s with
  | EmptyString => match cur with EmptyString => [] | _ => [cur] end
  | String c s' =>
      if is_space c
      then match cur with
           | EmptyString => split_from EmptyString s'
           | _ => cur :: split_from EmptyString s'
           end
      else split_from (cur ++ String c EmptyString) s'
  end.

Definition split (s : string) : list string := split_from EmptyString s.

(** Decimal digits with single underscores allowed between digits;
    [prev] tells whether the previous character was a digit. *)
Fixpoint digits (prev : bool) (acc : Z) (s : string) : option Z :=
  match s with
  | EmptyString => if prev then Some acc else None
  | String c s' =>
      if is_digit c then digits true (10 * acc + digit_val c) s'
      else if Ascii.eqb c "_"%char
           then (if prev then digits false acc s' else None)
           else None
  end.

(** The white space [int()] skips around the digits of an ASCII string:
    TAB, LF, VT, FF, CR and space.  Unlike [str.strip], it does not skip FS,
    GS, RS and US. *)
Definition is_int_space (c : ascii) : bool :=
  let n := nat_of_ascii c in
  ((9 <=? n)%nat && (n <=? 13)%nat) || (n =? 32)%nat.

Fixpoint lstrip_int (s : string) : string :=
  match s with
  | String c s' => if is_int_space c then lstrip_int s' else s
  | EmptyString => EmptyString
  end.

Fixpoint rstrip_int (s : string) : string :=
  match s with
  | String c s' =>
      match rstrip_int s' with
      | EmptyString => if is_int_space c then EmptyString else String c EmptyString
      | r => String c r
      end
  | EmptyString => EmptyString
  end.

(** [int(s)] for a string [s]: [None] stands for [ValueError]. *)
Definition int (s : string) : option Z :=
  match rstrip_int (lstrip_int s) with
  | String "-"%char d => Z.opp <$> digits false 0 d
  | String "+"%char d => digits false 0 d
  | d => digits false 0 d
  end.

(** ['%d' % z] *)
Definition fmt_d (z : Z) : string := NilZero.string_of_int (Z.to_int z).

End PyStr.

(** ** The [args] namespace *)

(** [args.repeats]: [None], the file opened by argparse for [-rep], or the
    value returned by [generate_repeats]. *)
Inductive Repeats :=
| RepFile (name : string)
| RepGenerated (min_motif_size max_motif_size : Z) (include_atomic : bool).

(** [args.min_units]: the string given on the command line, replaced by an
    [int] at line 123 when it parses as one. *)
Inductive Units :=
| UStr (s : string)
| UInt (z : Z).

(** [args.output]: [sys.stdout], a file opened by argparse, or the file
    opened at line 77 from the input's name. *)
Inductive Output :=
| OutStdout
| OutFile (name : string)
| OutPerfTsv (input : string).

Record Args := {
  input : string;
  format : string;
  output : Output;
  repeats : option Repeats;
  analyse : bool;
  annotate : option string;
  min_motif_size : Z;
  max_motif_size : Z;
  include_atomic : bool;
  min_length : option Z;
  min_units : option Units
}.

Definition set_output (o : Output) (a : Args) : Args :=
  {| input := input a; format := format a; output := o; repeats := repeats a;
     analyse := analyse a; annotate := annotate a;
     min_motif_size := min_motif_size a; max_motif_size := max_motif_size a;
     include_atomic := include_atomic a; min_length := min_length a;
     min_units := min_units a |}.

Definition set_repeats (r : option Repeats) (a : Args) : Args :=
  {| input := input a; format := format a; output := output a; repeats := r;
     analyse := analyse a; annotate := annotate a;
     min_motif_size := min_motif_size a; max_motif_size := max_motif_size a;
     include_atomic := include_atomic a; min_length := min_length a;
     min_units := min_units a |}.

Definition set_min_length (l : option Z) (a : Args) : Args :=
  {| input := input a; format := format a; output := output a;
     repeats := repeats a; analyse := analyse a; annotate := annotate a;
     min_motif_size := min_motif_size a; max_motif_size := max_motif_size a;
     include_atomic := include_atomic a; min_length := l;
     min_units := min_units a |}.

Definition set_min_units (u : option Units) (a : Args) : Args :=
  {| input := input a; format := format a; output := output a;
     repeats := repeats a; analyse := analyse a; annotate := annotate a;
     min_motif_size := min_motif_size a; max_motif_size := max_motif_size a;
     include_atomic := include_atomic a; min_length := min_length a;
     min_units := u |}.

(** [file.name], as line 76 reads it on the namespace [parse_args] returns
    ([sys.stdout] or a file opened by argparse); the name of the file opened
    at line 77, which is computed by [splitext], is not modelled and never
    read. *)
Definition output_name (o : Output) : option string :=
  match o with
  | OutStdout => Some "<stdout>"
  | OutFile n => Some n
  | OutPerfTsv _ => None
  end.

(** ** Truthiness *)

Definition truthy_int (z : Z) : bool := negb (z =? 0).

Definition truthy_opt_int (o : option Z) : bool :=
  match o with Some z => truthy_int z | None => false end.

Definition truthy_str (s : string) : bool :=
  match s with EmptyString => false | _ => true end.

Definition truthy_units (o : option Units) : bool :=
  match o with
  | Some (UStr s) => truthy_str s
  | Some (UInt z) => truthy_int z
  | None => false
  end.

(** a file object and a non-empty list are true; [None] is false *)
Definition truthy_repeats (o : option Repeats) : bool :=
  match o with Some _ => true | None => false end.

Definition truthy_dict (o : option (gmap Z Z)) : bool :=
  match o with
  | Some m => negb (bool_decide (m = ∅))
  | None => false
  end.

(** ** Exceptions, log and the monad of the embedding *)

Inductive Exn :=
| SystemExit (msg : string)
| ParserError (msg : string)
| ValueError
| IndexError
| TypeError
| FileNotFoundError (path : string)
| NameError (name : string)
| UnboundLocalError (name : string).

(** What [build_rep_set] returns, kept symbolic. *)
Inductive RepeatsInfo :=
| InfoLength (repeat_file : option Repeats) (length_cutoff : option Z)
| InfoUnits (repeat_file : option Repeats) (unit_cutoff : gmap Z Z).

(** One argument of a [print] call. *)
Inductive Printed :=
| PStr (s : string)
| PDict (d : gmap Z Z).

Inductive Event :=
| Call_generate_repeats (min_motif_size max_motif_size : Z) (include_atomic : bool)
| Call_ssr_native (args : Args) (length_cutoff : option Z)
                  (unit_cutoff : option (gmap Z Z))
| Call_build_rep_set (info : RepeatsInfo)
| Call_fasta_ssrs (args : Args) (repeats_info : RepeatsInfo)
| Call_fastq_ssrs (args : Args) (repeats_info : RepeatsInfo)
| Call_annotate (args : Args)
| Call_analyse (args : Args)
| Stderr (items : list Printed).

Record State := { st_args : Args; st_log : list Event }.

Inductive Result (A : Type) :=
| Ok (a : A)
| Raise (e : Exn).
Arguments Ok {A} a.
Arguments Raise {A} e.

Definition M (A : Type) : Type := State -> Result A * State.

Definition ret {A} (a : A) : M A := fun s => (Ok a, s).

Definition bind {A B} (m : M A) (k : A -> M B) : M B :=
  fun s => match m s with
           | (Ok a, s') => k a s'
           | (Raise e, s') => (Raise e, s')
           end.

Definition raise {A} (e : Exn) : M A := fun s => (Raise e, s).

Definition emit (e : Event) : M unit :=
  fun s => (Ok tt, {| st_args := st_args s; st_log := st_log s ++ [e] |}).

Definition get_args : M Args := fun s => (Ok (st_args s), s).

Definition modify_args (f : Args -> Args) : M unit :=
  fun s => (Ok tt, {| st_args := f (st_args s); st_log := st_log s |}).

(** [try: body except ...: handler]; the handler is chosen by the exception,
    [None] lets it propagate. *)
Definition try_except {A} (body : M A) (handler : Exn -> option (M A)) : M A :=
  fun s => match body s with
           | (Ok a, s') => (Ok a, s')
           | (Raise e, s') =>
               match handler e with
               | Some h => h s'
               | None => (Raise e, s')
               end
           end.

Declare Scope py_scope.
Delimit Scope py_scope with py.
Notation "x <- c1 ;; c2" := (bind c1 (fun x => c2))
  (at level 100, c1 at next level, right associativity) : py_scope.
Notation "c1 ;; c2" := (bind c1 (fun _ => c2))
  (at level 100, right associativity) : py_scope.
Open Scope py_scope.

(** [sys.exit(msg)] *)
Definition sys_exit {A} (msg : string) : M A := raise (SystemExit msg).

(** [int(x)] *)
Definition int_ (s : string) : M Z :=
  match PyStr.int s with
  | Some z => ret z
  | None => raise ValueError
  end.

(** [L[i]] *)
Definition index (L : list string) (i : nat) : M string :=
  match nth_error L i with
  | Some x => ret x
  | None => raise IndexError
  end.

(** [print(..., file=sys.stderr)] *)
Definition print_stderr (items : list Printed) : M unit := emit (Stderr items).

(** ** Name resolution in the module *)

(** The names bound at module level in [core.py] (lines 5-17 and the three
    [def]s).  None of them is a string, so what they are bound to is kept as
    a tag. *)
Inductive PyObj := ObjModule | ObjClass | ObjFunction | ObjFloat | ObjStr (s : string).

Definition module_globals : list (string * PyObj) :=
  [ ("print_function", ObjClass); ("division", ObjClass);
    ("sys", ObjModule); ("argparse", ObjModule); ("gzip", ObjModule);
    ("json", ObjModule); ("ntpath", ObjModule);
    ("splitext", ObjFunction); ("datetime", ObjClass); ("multi", ObjModule);
    ("rawcharCount", ObjFunction); ("dotDict", ObjClass);
    ("getGC", ObjFunction); ("get_targetids", ObjFunction);
    ("generate_repeats", ObjFunction); ("get_ssrs", ObjFunction);
    ("build_rep_set", ObjFunction); ("fasta_ssrs", ObjFunction);
    ("ssr_fastq_output", ObjFunction); ("process_fastq", ObjFunction);
    ("get_ssrs_fastq", ObjFunction); ("fastq_ssrs", ObjFunction);
    ("analyse", ObjFunction); ("analyse_fastq", ObjFunction);
    ("annotate", ObjFunction); ("inf", ObjFloat);
    ("getArgs", ObjFunction); ("ssr_native", ObjFunction);
    ("main", ObjFunction) ].

Fixpoint assoc (name : string) (env : list (string * PyObj)) : option PyObj :=
  match env with
  | [] => None
  | (n, v) :: env' => if String.eqb n name then Some v else assoc name env'
  end.

(** Reading a name that is not local: a module-level binding, else
    [NameError] (no builtin is called [input_format]). *)
Definition load_global (name : string) : M PyObj :=
  match assoc name module_globals with
  | Some v => ret v
  | None => raise (NameError name)
  end.

(** Reading a local variable that may not have been assigned. *)
Definition load_local {A} (name : string) (v : option A) : M A :=
  match v with
  | Some x => ret x
  | None => raise (UnboundLocalError name)
  end.

(** [obj == 'literal'] *)
Definition obj_eq_str (o : PyObj) (s : string) : bool :=
  match o with ObjStr t => String.eqb t s | _ => false end.

(** ** getArgs (lines 20-79) *)

(** [parser.error(msg)]: prints the usage and exits with status 2. *)
Definition parser_error {A} (msg : string) : M A := raise (ParserError msg).

Definition getArgs : M unit :=
  args <- get_args ;;
  (if truthy_repeats (repeats args)
      && (truthy_int (min_motif_size args) || truthy_int (max_motif_size args))
   then parser_error "-rep is not allowed with -m/-M"
   else ret tt) ;;
  (if bool_decide (output_name (output args) = Some "<stdout>")
   then modify_args (set_output (OutPerfTsv (input args)))
   else ret tt).

(** ** ssr_native (lines 82-100) *)

(** External calls: logged, and taken to return. *)
Definition build_rep_set (info : RepeatsInfo) : M RepeatsInfo :=
  emit (Call_build_rep_set info) ;; ret info.

Definition generate_repeats (mn mx : Z) (atomic : bool) : M Repeats :=
  emit (Call_generate_repeats mn mx atomic) ;; ret (RepGenerated mn mx atomic).

(** ['Using length cutoff of %d' % (length_cutoff)] *)
Definition fmt_length_cutoff (length_cutoff : option Z) : M string :=
  match length_cutoff with
  | Some l => ret ("Using length cutoff of " ++ PyStr.fmt_d l)
  | None => raise TypeError
  end.

(** The keyword parameters default to [False], written [None] here. *)
Definition ssr_native (args : Args) (length_cutoff : option Z)
    (unit_cutoff : option (gmap Z Z)) : M unit :=
  emit (Call_ssr_native args length_cutoff unit_cutoff) ;;
  let repeat_file := repeats args in
  repeats_info <-
    (if truthy_opt_int length_cutoff then
       let length_cutoff := min_length args in
       info <- build_rep_set (InfoLength repeat_file length_cutoff) ;;
       msg <- fmt_length_cutoff length_cutoff ;;
       print_stderr [PStr msg] ;;
       ret (Some info)
     else if truthy_dict unit_cutoff then
       match unit_cutoff with
       | Some d =>
           info <- build_rep_set (InfoUnits repeat_file d) ;;
           print_stderr [PStr "Using unit cutoff of "; PDict d] ;;
           ret (Some info)
       | None => ret None
       end
     else ret None) ;;
  if String.eqb (format args) "fasta" then
    info <- load_local "repeats_info" repeats_info ;;
    emit (Call_fasta_ssrs args info)
  else
    input_format <- load_global "input_format" ;;
    if obj_eq_str input_format "fastq" then
      info <- load_local "repeats_info" repeats_info ;;
      emit (Call_fastq_ssrs args info)
    else ret tt.

(** ** main (lines 103-152) *)

Definition invalid_units_msg : string :=
  "Invalid file format given for minimum units. Refer to help for more details".

Definition units_not_found_msg : string :=
  "Units file specified is not found. Please provide a valid file".

(** The file system as [open(path, 'r')] sees it: the lines of the file, or
    [None] when there is no such file.  Other failures of [open] (a
    directory, missing permissions) are not modelled. *)
Definition FileSystem := string -> option (list string).

Definition open_ (fs : FileSystem) (path : string) : M (list string) :=
  match fs path with
  | Some lines => ret lines
  | None => raise (FileNotFoundError path)
  end.

(** Lines 129-137: the body of the loop over the lines of the units file. *)
Definition units_line (line : string) (unit_cutoff : gmap Z Z) : M (gmap Z Z) :=
  let L := PyStr.split (PyStr.strip line) in
  try_except
    (x0 <- index L 0 ;;
     L0 <- int_ x0 ;;
     x1 <- index L 1 ;;
     L1 <- int_ x1 ;;
     (if L1 =? 1
      then print_stderr
             [PStr ("Warning: Repeat unit of 1 used for size " ++ PyStr.fmt_d L0 ++ ".")]
      else ret tt) ;;
     ret (<[L0 := L1]> unit_cutoff))
    (fun e => match e with
              | ValueError => Some (sys_exit invalid_units_msg)
              | _ => None
              end).

(** Line 128: [for line in input_units]. *)
Fixpoint units_lines (lines : list string) (unit_cutoff : gmap Z Z) : M (gmap Z Z) :=
  match lines with
  | [] => ret unit_cutoff
  | line :: rest =>
      unit_cutoff' <- units_line line unit_cutoff ;;
      units_lines rest unit_cutoff'
  end.

(** [int(args.min_units)] *)
Definition int_units (u : Units) : M Z :=
  match u with
  | UStr s => int_ s
  | UInt z => ret z
  end.

(** Lines 121-139: the table of unit cutoffs.  The branch is only entered
    with [args.min_units] true, hence not [None]; [open] of an [int] does
    not occur, since the file is opened only after [int()] failed. *)
Definition units_table (fs : FileSystem) (u : Units) : M (gmap Z Z) :=
  let unit_cutoff : gmap Z Z := ∅ in
  try_except
    (z <- int_units u ;;
     modify_args (set_min_units (Some (UInt z))) ;;
     ret (<[0 := z]> unit_cutoff))
    (fun e => match e with
              | ValueError =>
                  Some (try_except
                          (lines <- open_ fs (match u with UStr s => s | UInt _ => "" end) ;;
                           units_lines lines unit_cutoff)
                          (fun e' => match e' with
                                     | FileNotFoundError _ => Some (sys_exit units_not_found_msg)
                                     | _ => None
                                     end))
              | _ => None
              end).

Definition main (fs : FileSystem) : M unit :=
  getArgs ;;
  args <- get_args ;;
  (match repeats args with
   | None =>
       r <- generate_repeats (min_motif_size args) (max_motif_size args)
                             (include_atomic args) ;;
       modify_args (set_repeats (Some r))
   | Some _ => ret tt
   end) ;;
  args <- get_args ;;
  (if truthy_opt_int (min_length args) then
     ssr_native args (min_length args) None
   else if truthy_units (min_units args) then
     match min_units args with
     | Some u =>
         unit_cutoff <- units_table fs u ;;
         args <- get_args ;;
         ssr_native args None (Some unit_cutoff)
     | None => ret tt
     end
   else if bool_decide (min_length args = None) && bool_decide (min_units args = None) then
     modify_args (set_min_length (Some 12)) ;;
     args <- get_args ;;
     ssr_native args (min_length args) None
   else ret tt) ;;
  args <- get_args ;;
  (match annotate args with
   | Some _ => emit (Call_annotate args)
   | None => ret tt
   end) ;;
  args <- get_args ;;
  if analyse args then emit (Call_analyse args) else ret tt.

(** The state in which the program starts: the namespace returned by
    [parse_args] and an empty log. *)
Definition start (parsed : Args) : State := {| st_args := parsed; st_log := [] |}.

Definition run (fs : FileSystem) (parsed : Args) : Result unit * State :=
  main fs (start parsed).

Definition outcome (fs : FileSystem) (parsed : Args) : Result unit := fst (run fs parsed).
Definition log_of (fs : FileSystem) (parsed : Args) : list Event := st_log (snd (run fs parsed)).
Definition final_args (fs : FileSystem) (parsed : Args) : Args := st_args (snd (run fs parsed)).

(** ** Reading the log *)

Definition ssr_native_call (e : Event) : option (Args * option Z * option (gmap Z Z)) :=
  match e with
  | Call_ssr_native a lc uc => Some (a, lc, uc)
  | _ => None
  end.

Definition generate_repeats_call (e : Event) : option (Z * Z * bool) :=
  match e with
  | Call_generate_repeats mn mx atomic => Some (mn, mx, atomic)
  | _ => None
  end.

Definition fastq_ssrs_call (e : Event) : option (Args * RepeatsInfo) :=
  match e with
  | Call_fastq_ssrs a i => Some (a, i)
  | _ => None
  end.

Definition stderr_write (e : Event) : option (list Printed) :=
  match e with
  | Stderr items => Some items
  | _ => None
  end.

(** The calls of one kind found in a log, in program order. *)
Fixpoint calls {A} (pick : Event -> option A) (log : list Event) : list A :=
  match log with
  | [] => []
  | e :: log' =>
      match pick e with
      | Some x => x :: calls pick log'
      | None => calls pick log'
      end
  end.

(** The repeats handed to [build_rep_set]. *)
Definition info_repeats (i : RepeatsInfo) : option Repeats :=
  match i with
  | InfoLength r _ => r
  | InfoUnits r _ => r
  end.

(** [getArgs] returned (it did not call [parser.error]). *)
Definition accepted (parsed : Args) : Prop :=
  fst (getArgs (start parsed)) = Ok tt.

(** ** main, step by step

    The three blocks of [main] that follow the call of [getArgs], as
    computations of their own; [main_steps] below shows that [main] is their
    sequence. *)

Open Scope list_scope.

(** Lines 110-113. *)
Definition catalog_step : M unit :=
  args <- get_args ;;
  match repeats args with
  | None =>
      r <- generate_repeats (min_motif_size args) (max_motif_size args)
                            (include_atomic args) ;;
      modify_args (set_repeats (Some r))
  | Some _ => ret tt
  end.

(** Lines 116-145. *)
Definition cutoff_step (fs : FileSystem) : M unit :=
  args <- get_args ;;
  if truthy_opt_int (min_length args) then
    ssr_native args (min_length args) None
  else if truthy_units (min_units args) then
    match min_units args with
    | Some u =>
        unit_cutoff <- units_table fs u ;;
        args <- get_args ;;
        ssr_native args None (Some unit_cutoff)
    | None => ret tt
    end
  else if bool_decide (min_length args = None) && bool_decide (min_units args = None) then
    modify_args (set_min_length (Some 12)) ;;
    args <- get_args ;;
    ssr_native args (min_length args) None
  else ret tt.

(** Lines 147-152. *)
Definition report_step : M unit :=
  args <- get_args ;;
  (match annotate args with
   | Some _ => emit (Call_annotate args)
   | None => ret tt
   end) ;;
  args <- get_args ;;
  if analyse args then emit (Call_analyse args) else ret tt.

(** ** Notions used in the statements *)

(** The state with more events in its log. *)
Definition add_log (evs : list Event) (s : State) : State :=
  {| st_args := st_args s; st_log := st_log s ++ evs |}.

(** [respects I P m]: the computation [m] maintains the property [I] of
    [args], and every event it adds to the log satisfies [P]. *)
Definition respects (I : Args -> Prop) (P : Event -> Prop) {A} (m : M A) : Prop :=
  forall s, I (st_args s) ->
    exists evs, st_log (snd (m s)) = st_log s ++ evs
                /\ I (st_args (snd (m s)))
                /\ Forall P evs.

(** Events that belong to scanning: a call of [ssr_native] or of anything it
    calls. *)
Definition scanning_event (e : Event) : bool :=
  match e with
  | Call_ssr_native _ _ _ | Call_build_rep_set _
  | Call_fasta_ssrs _ _ | Call_fastq_ssrs _ _ => true
  | _ => false
  end.

(** An event that [ssr_native] may add after the record of its own call:
    neither a call of [generate_repeats] nor of [ssr_native], and, when it is
    a call of [build_rep_set], one that passes [args.repeats]. *)
Definition ssr_native_event (args : Args) (e : Event) : Prop :=
  generate_repeats_call e = None /\ ssr_native_call e = None /\
  (forall i, e = Call_build_rep_set i -> info_repeats i = repeats args).


(** ** The lines of a units file *)

(** The fields of a line, as line 129 computes them. *)
Definition fields (line : string) : list string := PyStr.split (PyStr.strip line).

(** The pair a line contributes when its first two fields are integers. *)
Definition entry (line : string) : option (Z * Z) :=
  match fields line with
  | x0 :: x1 :: _ =>
      match PyStr.int x0, PyStr.int x1 with
      | Some k, Some v => Some (k, v)
      | _, _ => None
      end
  | _ => None
  end.

(** A line with a non-integer among the fields that lines 131-132 convert:
    its first field is not an integer, or its first is and its second field
    exists and is not. *)
Definition non_integer_line (line : string) : Prop :=
  match fields line with
  | [] => False
  | x0 :: rest =>
      PyStr.int x0 = None
      \/ match rest with
         | [] => False
         | x1 :: _ => PyStr.int x1 = None
         end
  end.

(** A line on which indexing runs out of fields before any conversion
    fails: no field at all, or a single field that is an integer. *)
Definition index_error_line (line : string) : Prop :=
  match fields line with
  | [] => True
  | [x0] => PyStr.int x0 <> None
  | _ => False
  end.

(** The event of line 134. *)
Definition unit_warning (size : Z) : Event :=
  Stderr [PStr ("Warning: Repeat unit of 1 used for size " ++ PyStr.fmt_d size ++ ".")%string].

(** The warning a well-formed line gives rise to, if any. *)
Definition entry_warning (kv : Z * Z) : list Event :=
  if snd kv =? 1 then [unit_warning (fst kv)] else [].

(** Line 135. *)
Definition insert_entry (d : gmap Z Z) (kv : Z * Z) : gmap Z Z := <[fst kv := snd kv]> d.

(** What is wrong with the units file at [path]: it does not exist, or one
    of its lines has a non-integer field and no line before it runs out of
    fields. *)
Definition units_file_fault (fs : FileSystem) (path : string) : Prop :=
  match fs path with
  | None => True
  | Some lines =>
      exists pre bad post,
        lines = pre ++ bad :: post
        /\ Forall (fun l => ~ index_error_line l) pre
        /\ non_integer_line bad
  end.

(** The message [sys.exit] is given for it. *)
Definition units_file_diagnostic (fs : FileSystem) (path : string) : string :=
  match fs path with
  | None => units_not_found_msg
  | Some _ => invalid_units_msg
  end.

(** ** Inputs of the examples *)

(** No file exists. *)
Definition no_files : FileSystem := fun _ => None.

(** [perf -i genome.fa] *)
Definition default_args : Args :=
  {| input := "genome.fa"; format := "fasta"; output := OutStdout;
     repeats := None; analyse := false; annotate := None;
     min_motif_size := 1; max_motif_size := 6; include_atomic := false;
     min_length := None; min_units := None |}.

(** [perf -i genome.fa -rep repeats.txt] *)
Definition rep_default_args : Args :=
  {| input := "genome.fa"; format := "fasta"; output := OutStdout;
     repeats := Some (RepFile "repeats.txt"); analyse := false; annotate := None;
     min_motif_size := 1; max_motif_size := 6; include_atomic := false;
     min_length := None; min_units := None |}.

(** A repeats file given with -m 0 -M 0, the only sizes [getArgs] lets
    through with it. *)
Definition user_repeats_args : Args :=
  {| input := "genome.fa"; format := "fasta"; output := OutStdout;
     repeats := Some (RepFile "repeats.txt"); analyse := false; annotate := None;
     min_motif_size := 0; max_motif_size := 0; include_atomic := false;
     min_length := None; min_units := None |}.

(** The [args] of [perf -i reads.fq --format fastq -l 12] when [ssr_native] is
    called. *)
Definition fastq_args : Args :=
  {| input := "reads.fq"; format := "fastq"; output := OutPerfTsv "reads.fq";
     repeats := Some (RepGenerated 1 6 false); analyse := false; annotate := None;
     min_motif_size := 1; max_motif_size := 6; include_atomic := false;
     min_length := Some 12; min_units := None |}.

(** [perf -i genome.fa -l 0] *)
Definition zero_length_args : Args :=
  {| input := "genome.fa"; format := "fasta"; output := OutStdout;
     repeats := None; analyse := false; annotate := None;
     min_motif_size := 1; max_motif_size := 6; include_atomic := false;
     min_length := Some 0; min_units := None |}.

(** [perf -i genome.fa -u units.txt] *)
Definition units_args : Args :=
  {| input := "genome.fa"; format := "fasta"; output := OutStdout;
     repeats := None; analyse := false; annotate := None;
     min_motif_size := 1; max_motif_size := 6; include_atomic := false;
     min_length := None; min_units := Some (UStr "units.txt") |}.

(** [perf -i genome.fa -u 1] *)
Definition scalar_one_args : Args :=
  {| input := "genome.fa"; format := "fasta"; output := OutStdout;
     repeats := None; analyse := false; annotate := None;
     min_motif_size := 1; max_motif_size := 6; include_atomic := false;
     min_length := None; min_units := Some (UStr "1") |}.

(** A units file whose second line has a non-integer second field. *)
Definition bad_units_fs : FileSystem :=
  fun path => if String.eqb path "units.txt" then Some ["1 10"; "2 six"; "3 4"] else None.

(** A units file that ends with a blank line. *)
Definition blank_line_fs : FileSystem :=
  fun path => if String.eqb path "units.txt" then Some ["1 10"; "2 6"; ""] else None.

(** A units file whose only line has one field, which is not an integer. *)
Definition one_word_fs : FileSystem :=
  fun path => if String.eqb path "units.txt" then Some ["x"] else None.

(** Size 2 is given twice: 10 units, then 4. *)
Definition duplicate_size_fs : FileSystem :=
  fun path =>
    if String.eqb path "units.txt" then Some ["1 12"; "2 10"; "3 5"; "2 4"; "4 3"] else None.

(** The same threshold, once through a units file and once as a scalar. *)
Definition one_unit_fs : FileSystem :=
  fun path => if String.eqb path "units.txt" then Some ["2 1"] else None.

(** ** Motif canonicalization (specification section 4.1) *)

(** Modelled from the spec: a motif, which the specification describes as a
    string of length k; it is taken character by character.  The catalog
    builder ([generate_repeats] and its helpers) is not part of [core.py]. *)
Definition Motif := list ascii.

(** Modelled from the spec: the lexicographic order of the specification,
    as Python orders strings: character by character by code, a proper
    prefix before its extensions. *)
Definition lex_compare (a b : Motif) : comparison := list_compare Ascii.compare a b.

Definition lex_leb (a b : Motif) : bool :=
  match lex_compare a b with Gt => false | _ => true end.

Definition lex_min (a b : Motif) : Motif := if lex_leb a b then a else b.

(** Modelled from the spec: the rotation of a motif by an offset, which the
    specification names [rotate(m, j)]; the function that computes it
    belongs to the catalog builder, whose source is not part of [core.py].
    The offset is taken modulo the length of the motif. *)
Definition rotate_motif (m : Motif) (j : nat) : Motif :=
  (drop (j mod length m) m ++ take (j mod length m) m)%list.

(** Modelled from the spec: the window of the motif's length that starts at
    offset [i] of the motif concatenated with itself. *)
Definition window (m : Motif) (i : nat) : Motif := take (length m) (drop i (m ++ m)%list).

(** Modelled from the spec: the canonical form of a motif, the
    lexicographically smallest of its rotations, computed as section 4.1
    says, by concatenating the motif with itself and taking the smallest
    window of the motif's length; the catalog builder that does it
    ([generate_repeats] and its helpers) is not part of [core.py]. *)
Definition canonical (m : Motif) : Motif :=
  foldr lex_min m (window m <$> seq 0%nat (length m)).

(** ** Notions used in the further properties *)

Definition build_rep_set_call (e : Event) : option RepeatsInfo :=
  match e with
  | Call_build_rep_set i => Some i
  | _ => None
  end.

Definition fasta_ssrs_call (e : Event) : option (Args * RepeatsInfo) :=
  match e with
  | Call_fasta_ssrs a i => Some (a, i)
  | _ => None
  end.

(** The calls of [annotate] and [analyse]. *)
Definition is_report_event (e : Event) : bool :=
  match e with
  | Call_annotate _ | Call_analyse _ => true
  | _ => false
  end.

(** What lines 147-152 add to the log for a given namespace. *)
Definition report_events (a : Args) : list Event :=
  (match annotate a with Some _ => [Call_annotate a] | None => [] end)
  ++ (if analyse a then [Call_analyse a] else []).

(** The events [ssr_native] can add to the log: all but a call of
    [fastq_ssrs], [generate_repeats], [annotate] or [analyse]. *)
Definition ssr_native_kind (e : Event) : bool :=
  match e with
  | Call_ssr_native _ _ _ | Call_build_rep_set _ | Call_fasta_ssrs _ _ | Stderr _ => true
  | _ => false
  end.

(** The line [ssr_native] prints in unit mode. *)
Definition unit_cutoff_line (d : gmap Z Z) : list Printed :=
  [PStr "Using unit cutoff of "; PDict d].

(** What line 134 prints for a size. *)
Definition unit_warning_line (size : Z) : list Printed :=
  [PStr ("Warning: Repeat unit of 1 used for size " ++ PyStr.fmt_d size ++ ".")%string].

(** The sizes whose entry has the value 1, in file order. *)
Definition sizes_of_one (ents : list (Z * Z)) : list Z :=
  fst <$> List.filter (fun kv => snd kv =? 1) ents.

(** The namespace as [getArgs] returns it (lines 76-77). *)
Definition args_after_getArgs (parsed : Args) : Args :=
  if bool_decide (output_name (output parsed) = Some "<stdout>")
  then set_output (OutPerfTsv (input parsed)) parsed
  else parsed.

(** The namespace when [main] reaches line 116: [args.repeats] is the
    repeats file, or else what [generate_repeats] returned. *)
Definition args_at_dispatch (parsed : Args) : Args :=
  let a := args_after_getArgs parsed in
  match repeats a with
  | None =>
      set_repeats (Some (RepGenerated (min_motif_size a) (max_motif_size a)
                           (include_atomic a))) a
  | Some _ => a
  end.

(** The log when [main] reaches line 116. *)
Definition catalog_log (parsed : Args) : list Event :=
  match repeats parsed with
  | None => [Call_generate_repeats (min_motif_size parsed) (max_motif_size parsed)
               (include_atomic parsed)]
  | Some _ => []
  end.

(** The state when [main] reaches line 116. *)
Definition dispatch_state (parsed : Args) : State :=
  {| st_args := args_at_dispatch parsed; st_log := catalog_log parsed |}.

(** What a run in length mode adds to the log from line 116 on, for the
    namespace [a] handed to [ssr_native]: the call, the table, the line on
    stderr and, when the format is 'fasta', the scan and the reports. *)
Definition length_mode_events (a : Args) (l : Z) : list Event :=
  [Call_ssr_native a (Some l) None;
   Call_build_rep_set (InfoLength (repeats a) (Some l));
   Stderr [PStr ("Using length cutoff of " ++ PyStr.fmt_d l)%string]]
  ++ (if String.eqb (format a) "fasta"
      then Call_fasta_ssrs a (InfoLength (repeats a) (Some l)) :: report_events a
      else []).

(** The same in unit mode, for a non-empty table [d]. *)
Definition unit_mode_events (a : Args) (d : gmap Z Z) : list Event :=
  [Call_ssr_native a None (Some d);
   Call_build_rep_set (InfoUnits (repeats a) d);
   Stderr (unit_cutoff_line d)]
  ++ (if String.eqb (format a) "fasta"
      then Call_fasta_ssrs a (InfoUnits (repeats a) d) :: report_events a
      else []).

(** How a run that reached [ssr_native] with a usable cutoff ends. *)
Definition scan_outcome (a : Args) : Result unit :=
  if String.eqb (format a) "fasta" then Ok tt else Raise (NameError "input_format").

(** A units file with no line. *)
Definition empty_units_fs : FileSystem :=
  fun path => if String.eqb path "units.txt" then Some [] else None.

(** Two entries of value 1, then a line with a word for a number, then a
    blank line. *)
Definition late_failure_fs : FileSystem :=
  fun path =>
    if String.eqb path "units.txt" then Some ["1 1"; "2 4"; "3 1"; "4 four"; ""] else None.

(** An event that is no part of a scan: not a call of [ssr_native], of
    [build_rep_set] or of [fasta_ssrs]. *)
Definition scan_free (e : Event) : Prop :=
  ssr_native_call e = None /\ build_rep_set_call e = None /\ fasta_ssrs_call e = None.

(** At most one call of [ssr_native], of [build_rep_set] and of
    [fasta_ssrs] among the events. *)
Definition at_most_one_scan (evs : list Event) : Prop :=
  (length (calls ssr_native_call evs) <= 1)%nat
  /\ (length (calls build_rep_set_call evs) <= 1)%nat
  /\ (length (calls fasta_ssrs_call evs) <= 1)%nat.

(** A units file that cannot be used: it does not exist, or one of its
    lines has a non-integer field (whatever the lines before it are). *)
Definition units_file_malformed (fs : FileSystem) (path : string) : Prop :=
  match fs path with
  | None => True
  | Some lines =>
      exists pre bad post, lines = pre ++ bad :: post /\ non_integer_line bad
  end.

(** A units file with a blank line before a line whose second field is not
    an integer. *)
Definition blank_then_bad_fs : FileSystem :=
  fun path => if String.eqb path "units.txt" then Some [""; "2 six"] else None.



(** * Properties *)

(** ** Generic facts about logs *)

Lemma calls_app {A} (pick : Event -> option A) (l1 l2 : list Event) :
  calls pick (l1 ++ l2) = calls pick l1 ++ calls pick l2.
Proof.
  induction l1 as [|e l1 IH]; simpl; [reflexivity|].
  destruct (pick e); simpl; rewrite IH; reflexivity.
Qed.

Lemma calls_none {A} (pick : Event -> option A) (l : list Event) :
  Forall (fun e => pick e = None) l -> calls pick l = [].
Proof.
  induction 1 as [|e l He _ IH]; simpl; [reflexivity|].
  rewrite He. exact IH.
Qed.

(** ** getArgs *)

Lemma getArgs_rejects_iff (parsed : Args) :
  fst (getArgs (start parsed)) = Raise (ParserError "-rep is not allowed with -m/-M")
  <-> repeats parsed <> None /\ (min_motif_size parsed <> 0 \/ max_motif_size parsed <> 0).
Proof.
  unfold getArgs, bind, get_args, start, parser_error, raise; simpl.
  unfold truthy_repeats, truthy_int.
  destruct (repeats parsed) as [r|]; simpl.
  - destruct (Z.eqb_spec (min_motif_size parsed) 0) as [Hm|Hm]; simpl.
    + destruct (Z.eqb_spec (max_motif_size parsed) 0) as [HM|HM]; simpl.
      * split; [|intros [_ [?|?]]; contradiction].
        destruct (bool_decide _); simpl; discriminate.
      * split; [intros _; split; [discriminate | right; exact HM] | reflexivity].
    + split; [intros _; split; [discriminate | left; exact Hm] | reflexivity].
  - split; [|intros [H _]; contradiction].
    destruct (bool_decide _); simpl; discriminate.
Qed.

Lemma getArgs_accepted_iff (parsed : Args) :
  accepted parsed
  <-> repeats parsed = None \/ (min_motif_size parsed = 0 /\ max_motif_size parsed = 0).
Proof.
  unfold accepted, getArgs, bind, get_args, start, parser_error, raise; simpl.
  unfold truthy_repeats, truthy_int.
  destruct (repeats parsed) as [r|]; simpl.
  - destruct (Z.eqb_spec (min_motif_size parsed) 0) as [Hm|Hm]; simpl.
    + destruct (Z.eqb_spec (max_motif_size parsed) 0) as [HM|HM]; simpl.
      * split; [intros _; right; split; assumption|intros _].
        destruct (bool_decide _); reflexivity.
      * split; [discriminate | intros [?|[_ ?]]; [discriminate | contradiction]].
    + split; [discriminate | intros [?|[? _]]; [discriminate | contradiction]].
  - split; [intros _; left; reflexivity | intros _].
    destruct (bool_decide _); reflexivity.
Qed.

(** C1 (evaluation of the code where the claim fails).  A repeats file
    given with the motif-size options left at their defaults (min 1, max 6)
    is rejected by [getArgs]: it calls [parser.error] with the message
    "-rep is not allowed with -m/-M", because the test of line 73 looks at
    the truth value of the sizes, and the defaults are non-zero. *)
Theorem getArgs_rejects_repeats_with_default_sizes (parsed : Args) (f : Repeats) :
  repeats parsed = Some f ->
  min_motif_size parsed = 1 ->
  max_motif_size parsed = 6 ->
  getArgs (start parsed)
  = (Raise (ParserError "-rep is not allowed with -m/-M"), start parsed).
Proof.
  intros Hr Hm HM.
  unfold getArgs, bind, get_args, start, parser_error, raise; simpl.
  rewrite Hr, Hm, HM. reflexivity.
Qed.

Lemma getArgs_rejects_repeats_with_default_sizes_witness :
  getArgs (start rep_default_args)
  = (Raise (ParserError "-rep is not allowed with -m/-M"), start rep_default_args).
Proof.
  apply (getArgs_rejects_repeats_with_default_sizes rep_default_args (RepFile "repeats.txt"));
    reflexivity.
Defined.

(** ** ssr_native *)

Ltac run_monad :=
  unfold bind, ret, raise, emit, get_args, modify_args, print_stderr,
    build_rep_set, generate_repeats, load_local, sys_exit, parser_error; simpl.

Lemma input_format_unbound : assoc "input_format" module_globals = None.
Proof. reflexivity. Qed.

Lemma ssr_native_effect (args : Args) lc uc (s : State) :
  exists evs,
    snd (ssr_native args lc uc s)
    = {| st_args := st_args s; st_log := st_log s ++ Call_ssr_native args lc uc :: evs |}
    /\ Forall (ssr_native_event args) evs.
Proof.
  unfold ssr_native, fmt_length_cutoff, load_global.
  rewrite input_format_unbound. run_monad.
  destruct (truthy_opt_int lc); simpl.
  - destruct (min_length args) as [l|]; simpl.
    + destruct (String.eqb (format args) "fasta"); simpl;
        eexists; (split; [repeat rewrite <- app_assoc; simpl; reflexivity|]);
        repeat constructor; simpl; try discriminate;
        intros i Hi; inversion Hi; reflexivity.
    + eexists; (split; [repeat rewrite <- app_assoc; simpl; reflexivity|]).
      repeat constructor; simpl; intros i Hi; inversion Hi; reflexivity.
  - destruct (truthy_dict uc); simpl.
    + destruct uc as [d|]; simpl.
      * destruct (String.eqb (format args) "fasta"); simpl;
          eexists; (split; [repeat rewrite <- app_assoc; simpl; reflexivity|]);
          repeat constructor; simpl; try discriminate;
          intros i Hi; inversion Hi; reflexivity.
      * destruct (String.eqb (format args) "fasta"); simpl;
          exists []; (split; [reflexivity | constructor]).
    + destruct (String.eqb (format args) "fasta"); simpl;
        exists []; (split; [reflexivity | constructor]).
Qed.

(** C2 (evaluation of the code where the claim fails).  With the input
    format 'fastq', [ssr_native] never reaches [fastq_ssrs]: line 99 reads the
    name [input_format], which is bound nowhere, so the call raises
    [NameError] (or, before that, [TypeError] at line 91 when a length cutoff
    is requested while [args.min_length] is [None]).  No call of
    [fastq_ssrs] is added to the log. *)
Theorem ssr_native_fastq_raises (args : Args) lc uc (s : State) :
  format args = "fastq" ->
  (fst (ssr_native args lc uc s) = Raise (NameError "input_format")
   \/ fst (ssr_native args lc uc s) = Raise TypeError)
  /\ calls fastq_ssrs_call (st_log (snd (ssr_native args lc uc s)))
     = calls fastq_ssrs_call (st_log s).
Proof.
  intros Hf.
  unfold ssr_native, fmt_length_cutoff, load_global.
  rewrite input_format_unbound, Hf. run_monad.
  destruct (truthy_opt_int lc); simpl.
  - destruct (min_length args) as [l|]; simpl.
    + split; [left; reflexivity|].
      rewrite !calls_app; simpl. rewrite !app_nil_r. reflexivity.
    + split; [right; reflexivity|].
      rewrite !calls_app; simpl. rewrite !app_nil_r. reflexivity.
  - destruct (truthy_dict uc); simpl.
    + destruct uc as [d|]; simpl; (split; [left; reflexivity|]);
        rewrite !calls_app; simpl; rewrite !app_nil_r; reflexivity.
    + split; [left; reflexivity|].
      rewrite !calls_app; simpl. rewrite !app_nil_r. reflexivity.
Qed.

Lemma ssr_native_fastq_raises_witness :
  (fst (ssr_native fastq_args (Some 12) None (start fastq_args))
   = Raise (NameError "input_format")
   \/ fst (ssr_native fastq_args (Some 12) None (start fastq_args)) = Raise TypeError)
  /\ calls fastq_ssrs_call
       (st_log (snd (ssr_native fastq_args (Some 12) None (start fastq_args))))
     = calls fastq_ssrs_call (st_log (start fastq_args)).
Proof.
  apply (ssr_native_fastq_raises fastq_args (Some 12) None (start fastq_args)).
  reflexivity.
Defined.

(** On the same input the FASTA sibling branch, which tests [args.format],
    runs to completion. *)
Example ssr_native_fasta_runs :
  fst (ssr_native (set_min_length (Some 12) rep_default_args) (Some 12) None
         (start rep_default_args)) = Ok tt.
Proof. reflexivity. Qed.

Example ssr_native_fastq_name_error :
  fst (ssr_native fastq_args (Some 12) None (start fastq_args))
  = Raise (NameError "input_format").
Proof. reflexivity. Qed.

(** ** main: the dispatch on the cutoff options *)

Ltac unfold_main :=
  unfold outcome, log_of, final_args, run, main, getArgs, ssr_native,
    fmt_length_cutoff, load_global, start;
  rewrite ?input_format_unbound; run_monad.

(** C3.  When neither --min-length nor --min-units is given (both are
    [None]) and [getArgs] has accepted the options, [main] sets
    [args.min_length] to 12 and calls [ssr_native] exactly once, with
    [length_cutoff=12]; the table is built by [build_rep_set] with the length
    cutoff 12, which is reported on stderr. *)
Theorem main_default_length_cutoff (fs : FileSystem) (parsed : Args) :
  accepted parsed ->
  min_length parsed = None ->
  min_units parsed = None ->
  min_length (final_args fs parsed) = Some 12
  /\ exists a,
      calls ssr_native_call (log_of fs parsed) = [(a, Some 12, None)]
      /\ min_length a = Some 12
      /\ In (Call_build_rep_set (InfoLength (repeats a) (Some 12))) (log_of fs parsed)
      /\ In (Stderr [PStr "Using length cutoff of 12"]) (log_of fs parsed).
Proof.
  intros Hacc Hl Hu. apply getArgs_accepted_iff in Hacc.
  destruct parsed as [inp fmt out rep ana ann mn mx atomic ml mu].
  simpl in Hacc, Hl, Hu. subst ml mu.
  unfold_main.
  destruct Hacc as [-> | [-> ->]]; simpl.
  - destruct (bool_decide (output_name out = Some "<stdout>")); simpl;
      destruct (String.eqb fmt "fasta"); simpl;
      destruct ann; simpl; destruct ana; simpl;
      (split; [reflexivity|]); eexists; (split; [reflexivity|]);
      (split; [reflexivity|]); simpl; tauto.
  - destruct rep; simpl;
      destruct (bool_decide (output_name out = Some "<stdout>")); simpl;
      destruct (String.eqb fmt "fasta"); simpl;
      destruct ann; simpl; destruct ana; simpl;
      (split; [reflexivity|]); eexists; (split; [reflexivity|]);
      (split; [reflexivity|]); simpl; tauto.
Qed.

Lemma main_default_length_cutoff_witness :
  min_length (final_args no_files default_args) = Some 12
  /\ exists a,
      calls ssr_native_call (log_of no_files default_args) = [(a, Some 12, None)]
      /\ min_length a = Some 12
      /\ In (Call_build_rep_set (InfoLength (repeats a) (Some 12)))
            (log_of no_files default_args)
      /\ In (Stderr [PStr "Using length cutoff of 12"]) (log_of no_files default_args).
Proof.
  apply (main_default_length_cutoff no_files default_args); reflexivity.
Defined.

(** C8.  When --min-length is given as 0 and --min-units is absent, none of
    the three branches of lines 116-145 runs: [ssr_native] is not called,
    [build_rep_set] is not called, nothing is written to stderr and
    [args.min_length] stays 0 (the default of 12 is not applied). *)
Theorem main_min_length_zero_skips_scan (fs : FileSystem) (parsed : Args) :
  min_length parsed = Some 0 ->
  min_units parsed = None ->
  calls ssr_native_call (log_of fs parsed) = []
  /\ calls stderr_write (log_of fs parsed) = []
  /\ (forall i, ~ In (Call_build_rep_set i) (log_of fs parsed))
  /\ min_length (final_args fs parsed) = Some 0.
Proof.
  intros Hl Hu.
  destruct parsed as [inp fmt out rep ana ann mn mx atomic ml mu].
  simpl in Hl, Hu. subst ml mu.
  unfold_main.
  destruct rep; simpl; unfold truthy_int;
    destruct (mn =? 0); simpl; destruct (mx =? 0); simpl;
    destruct (bool_decide (output_name out = Some "<stdout>")); simpl;
    destruct ann; simpl; destruct ana; simpl;
    repeat split; try reflexivity; intros i Hi; simpl in Hi;
    intuition discriminate.
Qed.

Lemma main_min_length_zero_skips_scan_witness :
  calls ssr_native_call (log_of no_files zero_length_args) = []
  /\ calls stderr_write (log_of no_files zero_length_args) = []
  /\ (forall i, ~ In (Call_build_rep_set i) (log_of no_files zero_length_args))
  /\ min_length (final_args no_files zero_length_args) = Some 0.
Proof.
  apply (main_min_length_zero_skips_scan no_files zero_length_args); reflexivity.
Defined.

(** For comparison: the run does complete, and the only external call is the
    catalog construction. *)
Example zero_length_run :
  outcome no_files zero_length_args = Ok tt
  /\ log_of no_files zero_length_args = [Call_generate_repeats 1 6 false].
Proof. split; reflexivity. Qed.

(** ** The units file (lines 127-137) *)

Lemma add_log_nil (s : State) : add_log [] s = s.
Proof. destruct s; unfold add_log; simpl. rewrite app_nil_r. reflexivity. Qed.

Lemma add_log_app (l1 l2 : list Event) (s : State) :
  add_log l2 (add_log l1 s) = add_log (l1 ++ l2) s.
Proof. unfold add_log; simpl. rewrite app_assoc. reflexivity. Qed.

(** The three ways a line can go. *)
Lemma units_line_entry line k v d s :
  entry line = Some (k, v) ->
  units_line line d s = (Ok (<[k := v]> d), add_log (entry_warning (k, v)) s).
Proof.
  unfold entry, units_line, fields. intros H.
  destruct (PyStr.split (PyStr.strip line)) as [|x0 [|x1 rest]]; try discriminate.
  unfold try_except, index, int_; run_monad.
  destruct (PyStr.int x0) as [k'|]; [|discriminate].
  destruct (PyStr.int x1) as [v'|]; [|discriminate].
  inversion H; subst k' v'. simpl.
  unfold entry_warning, unit_warning; simpl.
  destruct (v =? 1); simpl; [reflexivity|].
  rewrite add_log_nil. reflexivity.
Qed.

Lemma units_line_non_integer line d s :
  non_integer_line line ->
  units_line line d s = (Raise (SystemExit invalid_units_msg), s).
Proof.
  unfold non_integer_line, units_line, fields. intros H.
  destruct (PyStr.split (PyStr.strip line)) as [|x0 rest]; [contradiction|].
  unfold try_except, index, int_; run_monad.
  destruct (PyStr.int x0) as [k|]; simpl; [|reflexivity].
  destruct H as [H|H]; [discriminate|].
  destruct rest as [|x1 rest]; [contradiction|]. simpl.
  rewrite H. reflexivity.
Qed.

Lemma units_line_index_error line d s :
  index_error_line line ->
  units_line line d s = (Raise IndexError, s).
Proof.
  unfold index_error_line, units_line, fields. intros H.
  destruct (PyStr.split (PyStr.strip line)) as [|x0 [|x1 rest]];
    try contradiction; unfold try_except, index, int_; run_monad; [reflexivity|].
  destruct (PyStr.int x0) as [k|]; simpl; [reflexivity | congruence].
Qed.

(** Every line is of exactly one of the three kinds. *)
Lemma line_kinds line :
  (exists k v, entry line = Some (k, v)) \/ non_integer_line line \/ index_error_line line.
Proof.
  unfold entry, non_integer_line, index_error_line.
  destruct (fields line) as [|x0 [|x1 rest]].
  - right; right; exact I.
  - destruct (PyStr.int x0); [right; right; discriminate | right; left; left; reflexivity].
  - destruct (PyStr.int x0) as [k|]; [|right; left; left; reflexivity].
    destruct (PyStr.int x1) as [v|]; [left; eauto | right; left; right; reflexivity].
Qed.

Lemma two_fields_not_index_error line :
  (2 <= length (fields line))%nat -> ~ index_error_line line.
Proof.
  unfold index_error_line.
  destruct (fields line) as [|x0 [|x1 rest]]; simpl; intros H; try lia; tauto.
Qed.

(** A prefix of well-formed lines is consumed: the loop goes on with the
    remaining lines, the table extended in file order, and the warnings of
    the prefix in the log. *)
Lemma units_lines_entries pre :
  forall ents rest d s,
    map entry pre = map Some ents ->
    units_lines (pre ++ rest) d s
    = units_lines rest (fold_left insert_entry ents d)
                  (add_log (flat_map entry_warning ents) s).
Proof.
  induction pre as [|line pre IH]; intros ents rest d s H.
  - destruct ents; [|discriminate]. simpl. rewrite add_log_nil. reflexivity.
  - destruct ents as [|[k v] ents]; [discriminate|].
    simpl in H. inversion H as [[Hline Hpre]].
    simpl. unfold bind at 1. rewrite (units_line_entry _ _ _ _ _ Hline).
    rewrite (IH ents rest _ _ Hpre). rewrite add_log_app. reflexivity.
Qed.

(** Whatever the lines are, the loop leaves [args] alone and adds only
    warnings to the log. *)
Lemma units_lines_effect lines :
  forall d s, exists evs,
    snd (units_lines lines d s) = add_log evs s
    /\ Forall (fun e => exists k, e = unit_warning k) evs.
Proof.
  induction lines as [|line lines IH]; intros d s.
  - exists []. simpl. rewrite add_log_nil. split; [reflexivity | constructor].
  - simpl. unfold bind.
    destruct (line_kinds line) as [(k & v & H) | [H | H]].
    + rewrite (units_line_entry _ _ _ _ _ H).
      destruct (IH (<[k:=v]> d) (add_log (entry_warning (k, v)) s)) as (evs & Hs & Hev).
      exists (entry_warning (k, v) ++ evs). rewrite Hs, add_log_app. split; [reflexivity|].
      apply Forall_app; split; [|exact Hev].
      unfold entry_warning; simpl. destruct (v =? 1); repeat constructor. eauto.
    + rewrite (units_line_non_integer _ _ _ H). exists []. simpl.
      rewrite add_log_nil. split; [reflexivity | constructor].
    + rewrite (units_line_index_error _ _ _ H). exists []. simpl.
      rewrite add_log_nil. split; [reflexivity | constructor].
Qed.

(** A line with a non-integer field ends the loop with the 'Invalid file
    format' exit, provided no earlier line runs out of fields. *)
Lemma units_lines_non_integer pre :
  forall bad post d s,
    Forall (fun l => ~ index_error_line l) pre ->
    non_integer_line bad ->
    fst (units_lines (pre ++ bad :: post) d s) = Raise (SystemExit invalid_units_msg).
Proof.
  induction pre as [|line pre IH]; intros bad post d s Hpre Hbad.
  - simpl. unfold bind. rewrite (units_line_non_integer _ _ _ Hbad). reflexivity.
  - inversion Hpre as [|? ? Hline Hpre']; subst. simpl. unfold bind.
    destruct (line_kinds line) as [(k & v & H) | [H | H]].
    + rewrite (units_line_entry _ _ _ _ _ H). apply IH; assumption.
    + rewrite (units_line_non_integer _ _ _ H). reflexivity.
    + contradiction.
Qed.

Lemma units_lines_raises lines :
  forall d s e,
    fst (units_lines lines d s) = Raise e ->
    e = SystemExit invalid_units_msg \/ e = IndexError.
Proof.
  induction lines as [|line lines IH]; intros d s e; simpl.
  - discriminate.
  - unfold bind.
    destruct (line_kinds line) as [(k & v & H) | [H | H]].
    + rewrite (units_line_entry _ _ _ _ _ H). apply IH.
    + rewrite (units_line_non_integer _ _ _ H). simpl. intros [= <-]. left; reflexivity.
    + rewrite (units_line_index_error _ _ _ H). simpl. intros [= <-]. right; reflexivity.
Qed.

(** ** Effects of a computation on the shared state *)

Section Effects.

Variable I : Args -> Prop.
Variable P : Event -> Prop.

Local Abbreviation keeps := (respects I P).

Lemma respects_ret {A} (a : A) : keeps (ret a).
Proof.
  intros s Hs. exists []. simpl. rewrite app_nil_r. repeat split; [exact Hs | constructor].
Qed.

Lemma respects_raise {A} (e : Exn) : keeps (@raise A e).
Proof.
  intros s Hs. exists []. simpl. rewrite app_nil_r. repeat split; [exact Hs | constructor].
Qed.

Lemma respects_emit (e : Event) : P e -> keeps (emit e).
Proof.
  intros He s Hs. exists [e]. simpl. repeat split; [exact Hs | repeat constructor; exact He].
Qed.

Lemma respects_modify (f : Args -> Args) :
  (forall a, I a -> I (f a)) -> keeps (modify_args f).
Proof.
  intros Hf s Hs. exists []. simpl. rewrite app_nil_r.
  repeat split; [apply Hf; exact Hs | constructor].
Qed.

Lemma respects_bind {A B} (m : M A) (k : A -> M B) :
  keeps m -> (forall a, keeps (k a)) -> keeps (bind m k).
Proof.
  intros Hm Hk s Hs. unfold bind.
  destruct (Hm s Hs) as (evs & Hlog & Hargs & Hevs).
  destruct (m s) as [[a|e] s1]; simpl in *.
  - destruct (Hk a s1 Hargs) as (evs' & Hlog' & Hargs' & Hevs').
    exists (evs ++ evs'). rewrite Hlog', Hlog, app_assoc.
    repeat split; [exact Hargs' | apply Forall_app; split; assumption].
  - exists evs. repeat split; assumption.
Qed.

Lemma respects_get_args {B} (k : Args -> M B) :
  (forall a, I a -> keeps (k a)) -> keeps (bind get_args k).
Proof.
  intros Hk s Hs. unfold bind, get_args. apply Hk; exact Hs.
Qed.

Lemma respects_try {A} (body : M A) (handler : Exn -> option (M A)) :
  keeps body ->
  (forall e h, handler e = Some h -> keeps h) ->
  keeps (try_except body handler).
Proof.
  intros Hb Hh s Hs. unfold try_except.
  destruct (Hb s Hs) as (evs & Hlog & Hargs & Hevs).
  destruct (body s) as [[a|e] s1]; simpl in *.
  - exists evs. repeat split; assumption.
  - destruct (handler e) as [h|] eqn:Hhe.
    + destruct (Hh e h Hhe s1 Hargs) as (evs' & Hlog' & Hargs' & Hevs').
      exists (evs ++ evs'). rewrite Hlog', Hlog, app_assoc.
      repeat split; [exact Hargs' | apply Forall_app; split; assumption].
    + exists evs. repeat split; assumption.
Qed.

Lemma respects_int_ (x : string) : keeps (int_ x).
Proof. unfold int_. destruct (PyStr.int x); [apply respects_ret | apply respects_raise]. Qed.

Lemma respects_index (L : list string) (i : nat) : keeps (index L i).
Proof. unfold index. destruct (nth_error L i); [apply respects_ret | apply respects_raise]. Qed.

Lemma respects_open (fs : FileSystem) (path : string) : keeps (open_ fs path).
Proof. unfold open_. destruct (fs path); [apply respects_ret | apply respects_raise]. Qed.

(** The units file is read without touching [args]; only warnings are
    written. *)
Hypothesis warnings_allowed : forall k, P (unit_warning k).

Lemma respects_units_line line d : keeps (units_line line d).
Proof.
  unfold units_line. apply respects_try.
  - apply respects_bind; [apply respects_index | intros x0].
    apply respects_bind; [apply respects_int_ | intros L0].
    apply respects_bind; [apply respects_index | intros x1].
    apply respects_bind; [apply respects_int_ | intros L1].
    apply respects_bind; [|intros _; apply respects_ret].
    destruct (L1 =? 1); [|apply respects_ret].
    apply respects_emit. apply warnings_allowed.
  - intros e h. destruct e; try discriminate.
    intros [= <-]. apply respects_raise.
Qed.

Lemma respects_units_lines lines : forall d, keeps (units_lines lines d).
Proof.
  induction lines as [|line lines IH]; intros d; simpl.
  - apply respects_ret.
  - apply respects_bind; [apply respects_units_line | intros d'; apply IH].
Qed.

Hypothesis min_units_free : forall a u, I a -> I (set_min_units u a).

Lemma respects_units_table fs u : keeps (units_table fs u).
Proof.
  unfold units_table. apply respects_try.
  - apply respects_bind.
    + destruct u; simpl; [apply respects_int_ | apply respects_ret].
    + intros z. apply respects_bind; [|intros _; apply respects_ret].
      apply respects_modify. intros a Ha. apply min_units_free; exact Ha.
  - intros e h. destruct e; try discriminate.
    intros [= <-]. apply respects_try.
    + apply respects_bind; [apply respects_open | intros lines].
      apply respects_units_lines.
    + intros e h. destruct e; try discriminate.
      intros [= <-]. apply respects_raise.
Qed.

End Effects.

(** ** main, step by step *)

Lemma bind_assoc {A B C} (m : M A) (k : A -> M B) (k' : B -> M C) (s : State) :
  bind (bind m k) k' s = bind m (fun a => bind (k a) k') s.
Proof. unfold bind. destruct (m s) as [[a|e] s1]; reflexivity. Qed.

Lemma bind_ext {A B} (m : M A) (k k' : A -> M B) (s : State) :
  (forall a s', k a s' = k' a s') -> bind m k s = bind m k' s.
Proof. intros H. unfold bind. destruct (m s) as [[a|e] s1]; [apply H | reflexivity]. Qed.

Lemma main_steps (fs : FileSystem) (s : State) :
  main fs s = ((getArgs ;; catalog_step) ;; cutoff_step fs ;; report_step) s.
Proof.
  unfold main, catalog_step, cutoff_step, report_step.
  rewrite bind_assoc. apply bind_ext; intros _ s1.
  rewrite bind_assoc. apply bind_ext; intros args s2.
  apply bind_ext; intros _ s3.
  rewrite bind_assoc. reflexivity.
Qed.

(** The state in which the cutoff options are looked at: [getArgs] may have
    replaced [args.output], the catalog step has filled [args.repeats] when
    it was [None], and the log holds at most the call of
    [generate_repeats]. *)
Lemma prelude_spec (parsed : Args) :
  let r := fst ((getArgs ;; catalog_step) (start parsed)) in
  let s1 := snd ((getArgs ;; catalog_step) (start parsed)) in
  match repeats parsed with
  | None =>
      r = Ok tt
      /\ st_log s1 = [Call_generate_repeats (min_motif_size parsed)
                        (max_motif_size parsed) (include_atomic parsed)]
      /\ repeats (st_args s1)
         = Some (RepGenerated (min_motif_size parsed) (max_motif_size parsed)
                   (include_atomic parsed))
  | Some f => st_log s1 = [] /\ repeats (st_args s1) = Some f
  end
  /\ min_length (st_args s1) = min_length parsed
  /\ min_units (st_args s1) = min_units parsed
  /\ (accepted parsed -> r = Ok tt).
Proof.
  unfold accepted.
  destruct parsed as [inp fmt out rep ana ann mn mx atomic ml mu].
  unfold getArgs, catalog_step, start; run_monad.
  unfold truthy_int.
  destruct rep; simpl; destruct (mn =? 0); simpl; destruct (mx =? 0); simpl;
    destruct (bool_decide (output_name out = Some "<stdout>")); simpl;
    repeat split; try reflexivity; intros H; try reflexivity; discriminate.
Qed.

Lemma units_table_file fs path s :
  PyStr.int path = None ->
  units_table fs (UStr path) s
  = match fs path with
    | None => (Raise (SystemExit units_not_found_msg), s)
    | Some lines => units_lines lines ∅ s
    end.
Proof.
  intros Hint. unfold units_table, try_except at 1, bind at 1, int_units, int_.
  rewrite Hint. simpl. unfold try_except, bind at 1, open_.
  destruct (fs path) as [lines|]; simpl; [|reflexivity].
  destruct (units_lines lines ∅ s) as [[d|e] s'] eqn:E; [reflexivity|].
  destruct (units_lines_raises lines ∅ s e) as [-> | ->];
    [rewrite E; reflexivity | reflexivity | reflexivity].
Qed.

Lemma units_table_scalar fs str z s :
  PyStr.int str = Some z ->
  units_table fs (UStr str) s
  = (Ok (<[0 := z]> ∅),
     {| st_args := set_min_units (Some (UInt z)) (st_args s); st_log := st_log s |}).
Proof.
  intros Hint. unfold units_table, try_except, int_units, int_.
  rewrite Hint. run_monad. reflexivity.
Qed.

Lemma cutoff_step_units fs s u :
  min_length (st_args s) = None ->
  min_units (st_args s) = Some u ->
  truthy_units (Some u) = true ->
  cutoff_step fs s
  = (unit_cutoff <- units_table fs u ;;
     args <- get_args ;;
     ssr_native args None (Some unit_cutoff)) s.
Proof.
  intros Hl Hu Ht. unfold cutoff_step, bind at 1, get_args at 1.
  rewrite Hl, Hu, Ht. reflexivity.
Qed.

Lemma bind_raised {A B} (m : M A) (k : A -> M B) s e :
  fst (m s) = Raise e -> bind m k s = (Raise e, snd (m s)).
Proof. unfold bind. destruct (m s) as [[a|e'] s']; simpl; congruence. Qed.

Lemma no_scanning_no_call (log : list Event) :
  Forall (fun e => scanning_event e = false) log -> calls ssr_native_call log = [].
Proof.
  intros H. apply calls_none. eapply Forall_impl; [exact H|].
  intros [] He; simpl in *; try reflexivity; discriminate.
Qed.

(** When reading the units file raises, the run ends there, and nothing of
    the scan has been started. *)
Lemma main_units_file_raises fs parsed path (Q : Exn -> Prop) :
  accepted parsed ->
  min_length parsed = None ->
  min_units parsed = Some (UStr path) ->
  path <> "" ->
  (forall s, exists e, fst (units_table fs (UStr path) s) = Raise e /\ Q e) ->
  (exists e, outcome fs parsed = Raise e /\ Q e)
  /\ Forall (fun ev => scanning_event ev = false) (log_of fs parsed).
Proof.
  intros Hacc Hl Hu Hne Hraise.
  pose proof (prelude_spec parsed) as Hpre. simpl in Hpre.
  destruct Hpre as (Hrep & Hl1 & Hu1 & Hok). specialize (Hok Hacc).
  destruct ((getArgs;; catalog_step) (start parsed)) as [[[]|e0] s1] eqn:E;
    simpl in *; [|discriminate].
  rewrite Hl in Hl1. rewrite Hu in Hu1.
  assert (Hlog1 : Forall (fun ev => scanning_event ev = false) (st_log s1)).
  { destruct (repeats parsed); destruct Hrep as (? & Hrep); [|destruct Hrep as (Hrep & _)];
      rewrite ?H, ?Hrep; repeat constructor. }
  destruct (Hraise s1) as (e & He & HQ).
  assert (Hrun : run fs parsed = (Raise e, snd (units_table fs (UStr path) s1))).
  { unfold run. rewrite main_steps. unfold bind at 1. rewrite E.
    unfold bind at 1. rewrite (cutoff_step_units fs s1 (UStr path) Hl1 Hu1)
      by (destruct path; [contradiction | reflexivity]).
    rewrite (bind_raised _ _ _ e He). reflexivity. }
  unfold outcome, log_of. rewrite Hrun.
  split; [exists e; split; [reflexivity | exact HQ]|]. cbn [snd].
  destruct (respects_units_table (fun _ => True) (fun ev => scanning_event ev = false)
              (fun k => eq_refl) (fun _ _ _ => I) fs (UStr path) s1 I)
    as (evs & Hlog & _ & Hevs).
  rewrite Hlog. apply Forall_app; split; assumption.
Qed.

(** A line with two fields that are not both integers is a
    [non_integer_line]. *)
Lemma two_fields_not_both_integers line x0 x1 rest :
  fields line = x0 :: x1 :: rest ->
  PyStr.int x0 = None \/ PyStr.int x1 = None ->
  non_integer_line line.
Proof.
  unfold non_integer_line. intros -> [H|H]; [left; exact H | right; exact H].
Qed.

(** A file with a non-integer line never gets through the loop: it ends by
    [sys.exit] or by the [IndexError] of an earlier line. *)
Lemma units_lines_fault_raises pre :
  forall bad post d s,
    non_integer_line bad ->
    exists e, fst (units_lines (pre ++ bad :: post) d s) = Raise e
              /\ (e = SystemExit invalid_units_msg \/ e = IndexError).
Proof.
  induction pre as [|line pre IH]; intros bad post d s Hbad; simpl; unfold bind.
  - rewrite (units_line_non_integer _ _ _ Hbad). eauto.
  - destruct (line_kinds line) as [(k & v & H) | [H | H]].
    + rewrite (units_line_entry _ _ _ _ _ H). apply IH; exact Hbad.
    + rewrite (units_line_non_integer _ _ _ H). eauto.
    + rewrite (units_line_index_error _ _ _ H). eauto.
Qed.

(** C4 (as amended).  When --min-units names a units file (a non-empty
    value that is not an integer) and that file does not exist, or has a
    line with a non-integer among its first two fields, [main] ends by an
    exception before any scanning: [ssr_native] is not called, and neither
    is anything it calls.  The exception is [sys.exit] with the matching
    diagnostic whenever the offending line is reached, that is, whenever no
    line before it runs out of fields. *)
Theorem units_file_errors_stop_the_run
    (fs : FileSystem) (parsed : Args) (path : string) :
  accepted parsed ->
  min_length parsed = None ->
  min_units parsed = Some (UStr path) ->
  path <> "" ->
  PyStr.int path = None ->
  units_file_malformed fs path ->
  (exists e, outcome fs parsed = Raise e)
  /\ calls ssr_native_call (log_of fs parsed) = []
  /\ Forall (fun ev => scanning_event ev = false) (log_of fs parsed)
  /\ (units_file_fault fs path ->
      outcome fs parsed = Raise (SystemExit (units_file_diagnostic fs path))).
Proof.
  intros Hacc Hl Hu Hne Hint Hbad.
  destruct (main_units_file_raises fs parsed path
              (fun e => units_file_fault fs path ->
                        e = SystemExit (units_file_diagnostic fs path))
              Hacc Hl Hu Hne) as ((e & Hout & HQ) & Hlog).
  - intros s. rewrite (units_table_file fs path s Hint).
    unfold units_file_malformed, units_file_fault, units_file_diagnostic in *.
    destruct (fs path) as [lines|].
    + destruct Hbad as (pre & bad & post & -> & Hnon).
      destruct (units_lines_fault_raises pre bad post ∅ s Hnon) as (e & He & _).
      exists e. split; [exact He|].
      intros (pre' & bad' & post' & Heq & Hpre' & Hnon').
      rewrite Heq in He.
      rewrite (units_lines_non_integer pre' bad' post' ∅ s Hpre' Hnon') in He.
      inversion He; reflexivity.
    + eexists. split; [reflexivity | intros _; reflexivity].
  - split; [exists e; exact Hout|].
    split; [apply no_scanning_no_call; exact Hlog|].
    split; [exact Hlog|].
    intros Hfault. rewrite Hout, (HQ Hfault). reflexivity.
Qed.

Lemma units_file_errors_stop_the_run_witness :
  outcome bad_units_fs units_args = Raise (SystemExit invalid_units_msg)
  /\ calls ssr_native_call (log_of bad_units_fs units_args) = []
  /\ Forall (fun ev => scanning_event ev = false) (log_of bad_units_fs units_args).
Proof.
  destruct (units_file_errors_stop_the_run bad_units_fs units_args "units.txt")
    as (_ & Hcalls & Hscan & Hdiag); try reflexivity.
  - discriminate.
  - exists ["1 10"], "2 six", ["3 4"]. split; [reflexivity|].
    simpl. right. reflexivity.
  - split; [|split; [exact Hcalls | exact Hscan]].
    apply Hdiag. exists ["1 10"], "2 six", ["3 4"]. split; [reflexivity|]. split.
    + repeat constructor. simpl. tauto.
    + simpl. right. reflexivity.
Defined.

(** The file of the witness is at fault in the sense of [units_file_fault]:
    the run on it ends with the 'Invalid file format' exit. *)
Example bad_units_file_exits :
  units_file_fault bad_units_fs "units.txt"
  /\ outcome bad_units_fs units_args = Raise (SystemExit invalid_units_msg).
Proof.
  split; [|reflexivity].
  exists ["1 10"], "2 six", ["3 4"]. split; [reflexivity|]. split.
  - repeat constructor. simpl. tauto.
  - simpl. right. reflexivity.
Qed.

(** C4 (counterexample to the claim as stated).  The line "2 six" has two
    fields that are not both integers, yet the run on this file does not end
    in the 'Invalid file format' exit: the blank line before it raises
    [IndexError] at line 131, which no handler catches. *)
Lemma non_integer_line_after_blank_line :
  blank_then_bad_fs "units.txt" = Some [""; "2 six"]
  /\ fields "2 six" = ["2"; "six"]
  /\ PyStr.int "six" = None
  /\ outcome blank_then_bad_fs units_args = Raise IndexError
  /\ outcome blank_then_bad_fs units_args <> Raise (SystemExit invalid_units_msg).
Proof.
  repeat split; try reflexivity. discriminate.
Qed.

Example missing_units_file :
  outcome no_files units_args = Raise (SystemExit units_not_found_msg)
  /\ log_of no_files units_args = [Call_generate_repeats 1 6 false].
Proof. split; reflexivity. Qed.

(** Wherever the non-integer line stands in the file, [ssr_native] is not
    called. *)
Lemma non_integer_line_never_scans fs parsed path pre bad post :
  accepted parsed ->
  min_length parsed = None ->
  min_units parsed = Some (UStr path) ->
  path <> "" ->
  PyStr.int path = None ->
  fs path = Some (pre ++ bad :: post) ->
  non_integer_line bad ->
  (outcome fs parsed = Raise (SystemExit invalid_units_msg)
   \/ outcome fs parsed = Raise IndexError)
  /\ calls ssr_native_call (log_of fs parsed) = [].
Proof.
  intros Hacc Hl Hu Hne Hint Hfs Hbad.
  destruct (main_units_file_raises fs parsed path
              (fun e => e = SystemExit invalid_units_msg \/ e = IndexError)
              Hacc Hl Hu Hne) as ((e & Hout & He) & Hlog).
  - intros s. rewrite (units_table_file fs path s Hint), Hfs.
    apply units_lines_fault_raises; exact Hbad.
  - split; [destruct He as [-> | ->]; [left | right]; exact Hout|].
    apply no_scanning_no_call; exact Hlog.
Qed.

(** A line that runs out of fields, reached after well-formed lines only,
    ends the loop with [IndexError]. *)
Lemma units_lines_index_error pre :
  forall short post d s,
    Forall (fun l => is_Some (entry l)) pre ->
    index_error_line short ->
    fst (units_lines (pre ++ short :: post) d s) = Raise IndexError.
Proof.
  induction pre as [|line pre IH]; intros short post d s Hpre Hshort; simpl; unfold bind.
  - rewrite (units_line_index_error _ _ _ Hshort). reflexivity.
  - inversion Hpre as [|? ? [[k v] Hline] Hpre']; subst.
    rewrite (units_line_entry _ _ _ _ _ Hline). apply IH; assumption.
Qed.

(** C9 (as amended).  When the first line of the units file that is not a
    well-formed entry is blank or holds a single integer field, [main] ends
    with an uncaught [IndexError], not with the 'Invalid file format' exit;
    [ssr_native] is not called. *)
Theorem short_units_line_raises_index_error
    (fs : FileSystem) (parsed : Args) (path : string) (pre : list string)
    (short : string) (post : list string) :
  accepted parsed ->
  min_length parsed = None ->
  min_units parsed = Some (UStr path) ->
  path <> "" ->
  PyStr.int path = None ->
  fs path = Some (pre ++ short :: post) ->
  Forall (fun l => is_Some (entry l)) pre ->
  index_error_line short ->
  outcome fs parsed = Raise IndexError
  /\ outcome fs parsed <> Raise (SystemExit invalid_units_msg)
  /\ calls ssr_native_call (log_of fs parsed) = [].
Proof.
  intros Hacc Hl Hu Hne Hint Hfs Hpre Hshort.
  destruct (main_units_file_raises fs parsed path (fun e => e = IndexError)
              Hacc Hl Hu Hne) as ((e & Hout & ->) & Hlog).
  - intros s. eexists. split; [|reflexivity].
    rewrite (units_table_file fs path s Hint), Hfs.
    apply units_lines_index_error; assumption.
  - split; [exact Hout|]. split; [rewrite Hout; discriminate|].
    apply no_scanning_no_call; exact Hlog.
Qed.

Lemma short_units_line_raises_index_error_witness :
  outcome blank_line_fs units_args = Raise IndexError
  /\ outcome blank_line_fs units_args <> Raise (SystemExit invalid_units_msg)
  /\ calls ssr_native_call (log_of blank_line_fs units_args) = [].
Proof.
  apply (short_units_line_raises_index_error blank_line_fs units_args "units.txt"
           ["1 10"; "2 6"] "" []);
    try reflexivity; [discriminate|].
  repeat constructor; eexists; reflexivity.
Defined.

(** C9 (counterexample to the claim as stated).  The line "x" has fewer than
    two fields, yet the run ends through the 'Invalid file format' exit:
    [int("x")] raises [ValueError] before the second field is indexed. *)
Lemma short_line_exits_as_invalid_format :
  one_word_fs "units.txt" = Some ["x"]
  /\ (length (fields "x") < 2)%nat
  /\ outcome one_word_fs units_args = Raise (SystemExit invalid_units_msg)
  /\ outcome one_word_fs units_args <> Raise IndexError.
Proof.
  split; [reflexivity|]. split; [simpl; lia|].
  split; [reflexivity | discriminate].
Qed.

(** ** The units table of a well-formed file *)

Lemma well_formed_entries lines :
  Forall (fun l => is_Some (entry l)) lines ->
  map entry lines = map Some (omap entry lines).
Proof.
  induction 1 as [|line lines [kv Hline] _ IH]; simpl; [reflexivity|].
  rewrite Hline. simpl. rewrite IH. reflexivity.
Qed.

Lemma units_lines_well_formed lines d s :
  Forall (fun l => is_Some (entry l)) lines ->
  units_lines lines d s
  = (Ok (fold_left insert_entry (omap entry lines) d),
     add_log (flat_map entry_warning (omap entry lines)) s).
Proof.
  intros H. rewrite <- (app_nil_r lines) at 1.
  rewrite (units_lines_entries lines (omap entry lines) [] d s (well_formed_entries _ H)).
  reflexivity.
Qed.

(** Later insertions of other keys leave a binding alone. *)
Lemma fold_insert_other (k : Z) (ents : list (Z * Z)) :
  forall d : gmap Z Z,
    Forall (fun kv => fst kv <> k) ents ->
    fold_left insert_entry ents d !! k = d !! k.
Proof.
  induction ents as [|[k' v'] ents IH]; intros d H; simpl; [reflexivity|].
  inversion H as [|? ? Hk Hrest]; subst. simpl in Hk.
  rewrite (IH _ Hrest). unfold insert_entry; simpl.
  apply lookup_insert_ne. exact Hk.
Qed.

Lemma fold_insert_last (k v : Z) (before after : list (Z * Z)) (d : gmap Z Z) :
  Forall (fun kv => fst kv <> k) after ->
  fold_left insert_entry (before ++ (k, v) :: after) d !! k = Some v.
Proof.
  intros H. rewrite fold_left_app. simpl.
  rewrite (fold_insert_other k after _ H).
  unfold insert_entry; simpl. apply lookup_insert_eq.
Qed.

Lemma respects_report_step (I : Args -> Prop) (P : Event -> Prop) :
  (forall a, P (Call_annotate a)) ->
  (forall a, P (Call_analyse a)) ->
  respects I P report_step.
Proof.
  intros Hann Hana. unfold report_step.
  apply respects_get_args; intros a _.
  apply respects_bind.
  - destruct (annotate a); [apply respects_emit, Hann | apply respects_ret].
  - intros _. apply respects_get_args; intros a' _.
    destruct (analyse a'); [apply respects_emit, Hana | apply respects_ret].
Qed.

(** A call of [ssr_native] followed by the reporting steps adds exactly one
    call of [ssr_native] to the log. *)
Lemma calls_ssr_native_then_report args lc uc s :
  calls ssr_native_call (st_log (snd ((ssr_native args lc uc ;; report_step) s)))
  = calls ssr_native_call (st_log s) ++ [(args, lc, uc)].
Proof.
  destruct (ssr_native_effect args lc uc s) as (evs & Hs & Hevs).
  assert (Hnone : calls ssr_native_call evs = []).
  { apply calls_none. eapply Forall_impl; [exact Hevs|]. intros e (_ & He & _); exact He. }
  unfold bind. destruct (ssr_native args lc uc s) as [[[]|e] s'];
    simpl in Hs; subst s'.
  - match goal with |- context [report_step ?st] =>
      destruct (respects_report_step (fun _ => True) (fun e => ssr_native_call e = None)
                  (fun _ => eq_refl) (fun _ => eq_refl) st I) as (evs' & Hlog & _ & Hevs')
    end.
    rewrite Hlog. simpl. rewrite !calls_app. simpl.
    rewrite Hnone, (calls_none _ _ Hevs'), app_nil_r. reflexivity.
  - simpl. rewrite calls_app. simpl. rewrite Hnone. reflexivity.
Qed.

(** The run on a units file all of whose lines are well formed: one call of
    [ssr_native], with the table built from the lines in file order; the
    warnings of the file are on stderr. *)
Lemma main_units_file_well_formed fs parsed path lines :
  accepted parsed ->
  min_length parsed = None ->
  min_units parsed = Some (UStr path) ->
  path <> "" ->
  PyStr.int path = None ->
  fs path = Some lines ->
  Forall (fun l => is_Some (entry l)) lines ->
  (exists a,
     calls ssr_native_call (log_of fs parsed)
     = [(a, None, Some (fold_left insert_entry (omap entry lines) ∅))])
  /\ (forall e, In e (flat_map entry_warning (omap entry lines)) -> In e (log_of fs parsed)).
Proof.
  intros Hacc Hl Hu Hne Hint Hfs Hwf.
  pose proof (prelude_spec parsed) as Hpre. simpl in Hpre.
  destruct Hpre as (Hrep & Hl1 & Hu1 & Hok). specialize (Hok Hacc).
  destruct ((getArgs;; catalog_step) (start parsed)) as [[[]|e0] s1] eqn:E;
    simpl in *; [|discriminate].
  rewrite Hl in Hl1. rewrite Hu in Hu1.
  assert (Hlog1 : calls ssr_native_call (st_log s1) = []).
  { destruct (repeats parsed); destruct Hrep as (? & Hrep); [|destruct Hrep as (Hrep & _)];
      rewrite ?H, ?Hrep; reflexivity. }
  set (d := fold_left insert_entry (omap entry lines) ∅).
  set (s2 := add_log (flat_map entry_warning (omap entry lines)) s1).
  assert (Hrun : run fs parsed
                 = (ssr_native (st_args s2) None (Some d) ;; report_step) s2).
  { unfold run. rewrite main_steps. unfold bind at 1. rewrite E.
    unfold bind at 1. rewrite (cutoff_step_units fs s1 (UStr path) Hl1 Hu1)
      by (destruct path; [contradiction | reflexivity]).
    unfold bind at 1. rewrite (units_table_file fs path s1 Hint), Hfs.
    rewrite (units_lines_well_formed lines ∅ s1 Hwf). reflexivity. }
  unfold log_of. rewrite Hrun. split.
  - exists (st_args s2). rewrite calls_ssr_native_then_report.
    unfold s2, add_log; simpl. rewrite calls_app, Hlog1. simpl.
    rewrite calls_none; [reflexivity|].
    apply List.Forall_forall. intros e He. apply in_flat_map in He.
    destruct He as ([k v] & _ & He). unfold entry_warning in He; simpl in He.
    destruct (v =? 1); [|contradiction]. destruct He as [<-|[]]. reflexivity.
  - intros e He.
    destruct (ssr_native_effect (st_args s2) None (Some d) s2) as (evs & Hs & _).
    assert (Hin2 : In e (st_log s2)).
    { unfold s2, add_log; simpl. apply in_or_app. right. exact He. }
    unfold bind. destruct (ssr_native (st_args s2) None (Some d) s2) as [[[]|ex] s3];
      simpl in Hs; subst s3.
    + match goal with |- context [report_step ?st] =>
        destruct (respects_report_step (fun _ => True) (fun _ => True)
                    (fun _ => I) (fun _ => I) st I) as (evs' & Hlog & _)
      end.
      rewrite Hlog. simpl. apply in_or_app. left. apply in_or_app. left. exact Hin2.
    + simpl. apply in_or_app. left. exact Hin2.
Qed.

(** C10.  In a units file all of whose lines are well formed, the table
    handed to [ssr_native] maps a motif size to the value on the last line
    that gives this size: a later line overwrites an earlier one, and the run
    goes on to the (single) call of [ssr_native]. *)
Theorem units_table_last_line_wins
    (fs : FileSystem) (parsed : Args) (path : string)
    (pre : list string) (line : string) (post : list string) (k v : Z) :
  accepted parsed ->
  min_length parsed = None ->
  min_units parsed = Some (UStr path) ->
  path <> "" ->
  PyStr.int path = None ->
  fs path = Some (pre ++ line :: post) ->
  Forall (fun l => is_Some (entry l)) (pre ++ line :: post) ->
  entry line = Some (k, v) ->
  Forall (fun l => forall v', entry l <> Some (k, v')) post ->
  exists a d,
    calls ssr_native_call (log_of fs parsed) = [(a, None, Some d)]
    /\ d !! k = Some v.
Proof.
  intros Hacc Hl Hu Hne Hint Hfs Hwf Hline Hpost.
  destruct (main_units_file_well_formed fs parsed path _ Hacc Hl Hu Hne Hint Hfs Hwf)
    as ((a & Hcalls) & _).
  exists a. eexists. split; [exact Hcalls|].
  rewrite omap_app. simpl. rewrite Hline.
  apply fold_insert_last.
  apply List.Forall_forall. intros [k' v'] Hin Hk. simpl in Hk. subst k'.
  apply list_elem_of_In, list_elem_of_omap in Hin.
  destruct Hin as (l & Hl' & Hentry).
  rewrite List.Forall_forall in Hpost.
  apply (Hpost l (proj1 (list_elem_of_In _ _) Hl') v'). exact Hentry.
Qed.

Lemma units_table_last_line_wins_witness :
  exists a d,
    calls ssr_native_call (log_of duplicate_size_fs units_args) = [(a, None, Some d)]
    /\ d !! 2 = Some 4.
Proof.
  apply (units_table_last_line_wins duplicate_size_fs units_args "units.txt"
           ["1 12"; "2 10"; "3 5"] "2 4" ["4 3"] 2 4);
    try reflexivity; [discriminate | |].
  - repeat constructor; eexists; reflexivity.
  - repeat constructor. intros v'. simpl. discriminate.
Defined.

(** ** Warnings for a unit threshold of 1 *)

Lemma truthy_dict_insert (k v : Z) (d : gmap Z Z) :
  truthy_dict (Some (<[k := v]> d)) = true.
Proof.
  unfold truthy_dict. rewrite bool_decide_eq_false_2; [reflexivity|].
  apply insert_non_empty.
Qed.

(** With a non-empty table of unit cutoffs, [ssr_native] writes one line to
    stderr, the table itself. *)
Lemma ssr_native_units_stderr args (d : gmap Z Z) s :
  truthy_dict (Some d) = true ->
  calls stderr_write (st_log (snd (ssr_native args None (Some d) s)))
  = calls stderr_write (st_log s) ++ [[PStr "Using unit cutoff of "; PDict d]].
Proof.
  intros Hd. unfold ssr_native, load_global.
  rewrite input_format_unbound, Hd. run_monad.
  destruct (String.eqb (format args) "fasta"); simpl;
    rewrite !calls_app; simpl; rewrite ?app_nil_r, <- ?app_assoc; reflexivity.
Qed.

Lemma stderr_ssr_native_then_report args (d : gmap Z Z) s :
  truthy_dict (Some d) = true ->
  calls stderr_write
    (st_log (snd ((ssr_native args None (Some d) ;; report_step) s)))
  = calls stderr_write (st_log s) ++ [[PStr "Using unit cutoff of "; PDict d]].
Proof.
  intros Hd. pose proof (ssr_native_units_stderr args d s Hd) as Hs.
  unfold bind. destruct (ssr_native args None (Some d) s) as [[[]|e] s']; simpl in *.
  - destruct (respects_report_step (fun _ => True) (fun e => stderr_write e = None)
                (fun _ => eq_refl) (fun _ => eq_refl) s' I) as (evs' & Hlog & _ & Hevs').
    rewrite Hlog, calls_app, Hs, (calls_none _ _ Hevs'), app_nil_r. reflexivity.
  - exact Hs.
Qed.

(** C5 (evaluation of the code where the claim fails).  A scalar
    --min-units value of 1 sets the threshold 1 for every motif size (the
    table is {0: 1}), and no warning is written: the only line on stderr is
    the one [ssr_native] prints.  The warning of line 134 exists only in the
    branch that reads a units file. *)
Theorem scalar_unit_of_one_gives_no_warning
    (fs : FileSystem) (parsed : Args) (str : string) :
  accepted parsed ->
  min_length parsed = None ->
  min_units parsed = Some (UStr str) ->
  PyStr.int str = Some 1 ->
  (exists a, calls ssr_native_call (log_of fs parsed) = [(a, None, Some (<[0 := 1]> ∅))])
  /\ calls stderr_write (log_of fs parsed)
     = [[PStr "Using unit cutoff of "; PDict (<[0 := 1]> ∅)]]
  /\ (forall k, ~ In (unit_warning k) (log_of fs parsed)).
Proof.
  intros Hacc Hl Hu Hint.
  pose proof (prelude_spec parsed) as Hpre. simpl in Hpre.
  destruct Hpre as (Hrep & Hl1 & Hu1 & Hok). specialize (Hok Hacc).
  destruct ((getArgs;; catalog_step) (start parsed)) as [[[]|e0] s1] eqn:E;
    simpl in *; [|discriminate].
  rewrite Hl in Hl1. rewrite Hu in Hu1.
  assert (Hlog1 : calls ssr_native_call (st_log s1) = []
                  /\ calls stderr_write (st_log s1) = []).
  { destruct (repeats parsed); destruct Hrep as (? & Hrep); [|destruct Hrep as (Hrep & _)];
      rewrite ?H, ?Hrep; split; reflexivity. }
  destruct Hlog1 as (Hcall1 & Herr1).
  set (s2 := {| st_args := set_min_units (Some (UInt 1)) (st_args s1);
                st_log := st_log s1 |}).
  assert (Hrun : run fs parsed
                 = (ssr_native (st_args s2) None (Some (<[0 := 1]> ∅)) ;; report_step) s2).
  { unfold run. rewrite main_steps. unfold bind at 1. rewrite E.
    unfold bind at 1. rewrite (cutoff_step_units fs s1 (UStr str) Hl1 Hu1)
      by (destruct str; [discriminate | reflexivity]).
    unfold bind at 1. rewrite (units_table_scalar fs str 1 s1 Hint). reflexivity. }
  assert (Herr : calls stderr_write (log_of fs parsed)
                 = [[PStr "Using unit cutoff of "; PDict (<[0 := 1]> ∅)]]).
  { unfold log_of. rewrite Hrun.
    rewrite (stderr_ssr_native_then_report _ _ _ (truthy_dict_insert 0 1 ∅)).
    simpl. rewrite Herr1. reflexivity. }
  split; [|split; [exact Herr|]].
  - exists (st_args s2). unfold log_of. rewrite Hrun.
    rewrite calls_ssr_native_then_report. simpl. rewrite Hcall1. reflexivity.
  - intros k Hin.
    assert (Hw : In [PStr ("Warning: Repeat unit of 1 used for size "
                           ++ PyStr.fmt_d k ++ ".")%string]
                    (calls stderr_write (log_of fs parsed))).
    { clear -Hin. induction (log_of fs parsed) as [|e log IH]; [contradiction|].
      destruct Hin as [-> | Hin]; simpl; [left; reflexivity|].
      destruct (stderr_write e); [right|]; apply IH; exact Hin. }
    rewrite Herr in Hw. destruct Hw as [Hw|[]]. discriminate.
Qed.

Lemma scalar_unit_of_one_gives_no_warning_witness :
  (exists a, calls ssr_native_call (log_of no_files scalar_one_args)
             = [(a, None, Some (<[0 := 1]> ∅))])
  /\ calls stderr_write (log_of no_files scalar_one_args)
     = [[PStr "Using unit cutoff of "; PDict (<[0 := 1]> ∅)]]
  /\ (forall k, ~ In (unit_warning k) (log_of no_files scalar_one_args)).
Proof.
  apply (scalar_unit_of_one_gives_no_warning no_files scalar_one_args "1"); reflexivity.
Defined.

(** The sibling path: a line of a well-formed units file that maps a size
    to 1 does get its warning. *)
Lemma units_file_entry_of_one_warns fs parsed path lines line k :
  accepted parsed ->
  min_length parsed = None ->
  min_units parsed = Some (UStr path) ->
  path <> "" ->
  PyStr.int path = None ->
  fs path = Some lines ->
  Forall (fun l => is_Some (entry l)) lines ->
  In line lines ->
  entry line = Some (k, 1) ->
  In (unit_warning k) (log_of fs parsed).
Proof.
  intros Hacc Hl Hu Hne Hint Hfs Hwf Hin Hline.
  destruct (main_units_file_well_formed fs parsed path _ Hacc Hl Hu Hne Hint Hfs Hwf)
    as (_ & Hwarn).
  apply Hwarn. apply in_flat_map. exists (k, 1). split; [|left; reflexivity].
  apply list_elem_of_In, list_elem_of_omap. exists line.
  split; [apply list_elem_of_In; exact Hin | exact Hline].
Qed.

Example units_file_of_one_warns :
  calls stderr_write (log_of one_unit_fs units_args)
  = [[PStr "Warning: Repeat unit of 1 used for size 2."];
     [PStr "Using unit cutoff of "; PDict (<[2 := 1]> ∅)]].
Proof. reflexivity. Qed.

Example scalar_of_one_is_silent :
  calls stderr_write (log_of no_files scalar_one_args)
  = [[PStr "Using unit cutoff of "; PDict (<[0 := 1]> ∅)]].
Proof. reflexivity. Qed.

(** ** The motif catalog: generated or supplied *)




Example user_repeats_run :
  outcome no_files user_repeats_args = Ok tt
  /\ calls generate_repeats_call (log_of no_files user_repeats_args) = []
  /\ In (Call_build_rep_set (InfoLength (Some (RepFile "repeats.txt")) (Some 12)))
        (log_of no_files user_repeats_args).
Proof. repeat split. simpl. tauto. Qed.

Example generated_repeats_run :
  calls generate_repeats_call (log_of no_files default_args) = [(1, 6, false)]
  /\ In (Call_build_rep_set (InfoLength (Some (RepGenerated 1 6 false)) (Some 12)))
        (log_of no_files default_args).
Proof. repeat split. simpl. tauto. Qed.

(** ** Motif canonicalization *)

Module Catalog.

Local Open Scope nat_scope.

(** ** The order *)

Lemma ascii_compare_eq (x y : ascii) : Ascii.compare x y = Eq <-> x = y.
Proof.
  split; [apply Ascii.compare_eq_iff|].
  intros ->. unfold Ascii.compare. apply N.compare_refl.
Qed.

Lemma ascii_compare_opp (x y : ascii) :
  Ascii.compare y x = CompOpp (Ascii.compare x y).
Proof. apply Ascii.compare_antisym. Qed.

Lemma ascii_compare_trans (x y z : ascii) (c : comparison) :
  Ascii.compare x y = c -> Ascii.compare y z = c -> Ascii.compare x z = c.
Proof.
  unfold Ascii.compare. destruct c; intros H1 H2.
  - apply N.compare_eq_iff in H1, H2. apply N.compare_eq_iff. congruence.
  - rewrite N.compare_lt_iff in *. eapply N.lt_trans; eassumption.
  - rewrite N.compare_gt_iff in *. eapply N.lt_trans; eassumption.
Qed.

Lemma lex_compare_eq (a b : Motif) : lex_compare a b = Eq <-> a = b.
Proof. apply list_compare_refl, ascii_compare_eq. Qed.

Lemma lex_compare_opp (a b : Motif) : lex_compare b a = CompOpp (lex_compare a b).
Proof. apply list_compare_antisym; [apply ascii_compare_eq | apply ascii_compare_opp]. Qed.

Lemma lex_leb_refl (a : Motif) : lex_leb a a = true.
Proof. unfold lex_leb. rewrite (proj2 (lex_compare_eq a a) eq_refl). reflexivity. Qed.

Lemma lex_leb_total (a b : Motif) : lex_leb a b = true \/ lex_leb b a = true.
Proof.
  unfold lex_leb. rewrite (lex_compare_opp a b).
  destruct (lex_compare a b); simpl; auto.
Qed.

Lemma lex_leb_antisym (a b : Motif) :
  lex_leb a b = true -> lex_leb b a = true -> a = b.
Proof.
  unfold lex_leb. rewrite (lex_compare_opp a b).
  destruct (lex_compare a b) eqn:E; simpl; try discriminate.
  intros _ _. apply lex_compare_eq; exact E.
Qed.

Lemma lex_leb_trans (a b c : Motif) :
  lex_leb a b = true -> lex_leb b c = true -> lex_leb a c = true.
Proof.
  unfold lex_leb.
  destruct (lex_compare a b) eqn:Eab; try discriminate; intros _;
    destruct (lex_compare b c) eqn:Ebc; try discriminate; intros _.
  - apply lex_compare_eq in Eab, Ebc. subst.
    rewrite (proj2 (lex_compare_eq c c) eq_refl). reflexivity.
  - apply lex_compare_eq in Eab. subst. rewrite Ebc. reflexivity.
  - apply lex_compare_eq in Ebc. subst. rewrite Eab. reflexivity.
  - unfold lex_compare in *.
    rewrite (list_compare_trans Ascii.compare ascii_compare_eq a b c
               ascii_compare_trans ascii_compare_opp Eab Ebc).
    reflexivity.
Qed.

(** ** The smallest element of a list *)

Lemma lex_min_cases (a b : Motif) :
  (lex_leb a b = true /\ lex_min a b = a) \/ (lex_leb a b = false /\ lex_min a b = b).
Proof. unfold lex_min. destruct (lex_leb a b); auto. Qed.

Lemma foldr_min_elem (d : Motif) (l : list Motif) :
  In (foldr lex_min d l) (d :: l).
Proof.
  induction l as [|x l IH]; simpl; [left; reflexivity|].
  destruct (lex_min_cases x (foldr lex_min d l)) as [[_ ->]|[_ ->]].
  - right; left; reflexivity.
  - destruct IH as [IH|IH]; [left; exact IH | right; right; exact IH].
Qed.

Lemma foldr_min_le (d : Motif) (l : list Motif) (x : Motif) :
  In x (d :: l) -> lex_leb (foldr lex_min d l) x = true.
Proof.
  induction l as [|y l IH]; simpl.
  - intros [<-|[]]. apply lex_leb_refl.
  - intros Hx.
    destruct (lex_min_cases y (foldr lex_min d l)) as [[E ->]|[E ->]].
    + destruct Hx as [<-|[<-|Hx]].
      * eapply lex_leb_trans; [exact E | apply IH; left; reflexivity].
      * apply lex_leb_refl.
      * eapply lex_leb_trans; [exact E | apply IH; right; exact Hx].
    + destruct Hx as [<-|[<-|Hx]].
      * apply IH; left; reflexivity.
      * destruct (lex_leb_total (foldr lex_min d l) y) as [H|H]; [exact H | congruence].
      * apply IH; right; exact Hx.
Qed.

(** ** Rotations *)

Lemma rotate_rotate (m : Motif) (i j : nat) :
  rotate i (rotate j m) = rotate (j + i) m.
Proof.
  apply list_eq. intros n.
  destruct (decide (n < length m)) as [Hn|Hn].
  - assert (Hk : rotate_nat_add i n (length m) < length m)
      by (apply rotate_nat_add_lt; lia).
    rewrite (lookup_rotate_r (rotate j m) i n) by (rewrite length_rotate; exact Hn).
    rewrite length_rotate.
    rewrite (lookup_rotate_r m j _ Hk), (lookup_rotate_r m (j + i) n Hn).
    f_equal. unfold rotate_nat_add.
    rewrite Z2Nat.id by (apply Z.mod_pos_bound; lia).
    rewrite Zplus_mod_idemp_r. f_equal. f_equal. lia.
  - rewrite !lookup_ge_None_2 by (rewrite ?length_rotate; lia). reflexivity.
Qed.

Lemma rotate_add_multiple (m : Motif) (a b : nat) :
  rotate (a + b * length m) m = rotate a m.
Proof. unfold rotate. rewrite Nat.Div0.mod_add. reflexivity. Qed.

Lemma rotate_0 (m : Motif) : rotate 0 m = m.
Proof.
  unfold rotate. rewrite Nat.Div0.mod_0_l. simpl. apply app_nil_r.
Qed.

Lemma window_rotate (m : Motif) (i : nat) :
  i < length m -> window m i = rotate i m.
Proof.
  intros Hi. unfold window, rotate.
  rewrite Nat.mod_small by exact Hi.
  rewrite drop_app_le by lia.
  rewrite take_app_ge by (rewrite length_drop; lia).
  rewrite length_drop. f_equal. f_equal. lia.
Qed.

(** The candidates among which [canonical] chooses are the rotations. *)
Lemma candidates_are_rotations (m c : Motif) :
  In c (m :: (window m <$> seq 0 (length m))) -> exists j, c = rotate j m.
Proof.
  intros [<-|Hc].
  - exists 0. symmetry. apply rotate_0.
  - apply in_map_iff in Hc. destruct Hc as (i & <- & Hi).
    apply in_seq in Hi. exists i. apply window_rotate. lia.
Qed.

Lemma rotations_are_candidates (m : Motif) (j : nat) :
  In (rotate j m) (m :: (window m <$> seq 0 (length m))).
Proof.
  destruct m as [|c m'] eqn:Hm;
    [left; unfold rotate; rewrite drop_nil, take_nil; reflexivity|].
  rewrite <- Hm.
  assert (Hlen : 0 < length m) by (rewrite Hm; simpl; lia).
  right. apply in_map_iff. exists (j mod length m). split.
  - rewrite window_rotate by (apply Nat.mod_upper_bound; lia).
    unfold rotate. rewrite Nat.Div0.mod_mod. reflexivity.
  - apply in_seq. pose proof (Nat.mod_upper_bound j (length m)). lia.
Qed.

(** [canonical m] is a rotation of [m], below every rotation of [m]; and
    it is the only such motif. *)
Lemma canonical_is_rotation (m : Motif) : exists j, canonical m = rotate j m.
Proof. apply candidates_are_rotations. apply foldr_min_elem. Qed.

Lemma canonical_le_rotation (m : Motif) (j : nat) :
  lex_leb (canonical m) (rotate j m) = true.
Proof. apply foldr_min_le. apply rotations_are_candidates. Qed.

Lemma canonical_unique (m c : Motif) :
  (exists j, c = rotate j m) ->
  (forall j, lex_leb c (rotate j m) = true) ->
  c = canonical m.
Proof.
  intros [j ->] Hle. destruct (canonical_is_rotation m) as [i Hi].
  apply lex_leb_antisym.
  - rewrite Hi. apply Hle.
  - apply canonical_le_rotation.
Qed.

Lemma rotate_nil (j : nat) : rotate j ([] : Motif) = [].
Proof. unfold rotate. rewrite drop_nil, take_nil. reflexivity. Qed.

(** Every rotation of [m] is a rotation of any rotation of [m]. *)
Lemma rotation_reachable (m : Motif) (i j : nat) :
  exists i', rotate i m = rotate i' (rotate j m).
Proof.
  destruct m as [|c m'] eqn:Hm.
  - exists 0. rewrite !rotate_nil. reflexivity.
  - rewrite <- Hm.
    assert (Hlen : length m = S (length m')) by (rewrite Hm; reflexivity).
    exists (i + j * length m'). rewrite rotate_rotate.
    rewrite <- (rotate_add_multiple m i j). f_equal. rewrite Hlen. lia.
Qed.

Lemma canonical_rotate (m : Motif) (j : nat) :
  canonical (rotate j m) = canonical m.
Proof.
  apply canonical_unique.
  - destruct (canonical_is_rotation (rotate j m)) as [i Hi].
    exists (j + i). rewrite Hi. apply rotate_rotate.
  - intros i. destruct (rotation_reachable m i j) as [i' ->].
    apply canonical_le_rotation.
Qed.

(** C7.  Canonicalization is idempotent and does not depend on the
    rotation it is given: [canonical (canonical m) = canonical m], and
    [canonical m = canonical (rotate(m, j))] for every offset [j]. *)
Theorem canonical_idempotent_rotation_invariant (m : Motif) (j : nat) :
  canonical (canonical m) = canonical m
  /\ canonical m = canonical (rotate_motif m j).
Proof.
  split.
  - destruct (canonical_is_rotation m) as [i Hi].
    rewrite Hi at 1. apply canonical_rotate.
  - change (rotate_motif m j) with (rotate j m). symmetry. apply canonical_rotate.
Qed.

(** The example of section 3: "TA" and "AT" are one class, represented by
    "AT". *)
Example canonical_TA :
  canonical (list_ascii_of_string "TA") = list_ascii_of_string "AT"
  /\ canonical (list_ascii_of_string "AT") = list_ascii_of_string "AT"
  /\ canonical (list_ascii_of_string "GTAC") = list_ascii_of_string "ACGT"
  /\ rotate_motif (list_ascii_of_string "ACGT") 1 = list_ascii_of_string "CGTA".
Proof. repeat split; reflexivity. Qed.

End Catalog.


(** * Further properties of [core.py] *)

(** ** ssr_native: when it returns, and what it builds *)

(** Every event [ssr_native] adds is of a kind in [ssr_native_kind], and
    [args] is not touched. *)
Lemma ssr_native_kinds (args : Args) lc uc (s : State) :
  exists evs,
    snd (ssr_native args lc uc s) = add_log evs s
    /\ Forall (fun e => ssr_native_kind e = true) evs.
Proof.
  unfold ssr_native, fmt_length_cutoff, load_global, add_log.
  rewrite input_format_unbound. run_monad.
  destruct (truthy_opt_int lc); simpl;
    [destruct (min_length args) as [l|]; simpl
    |destruct (truthy_dict uc); simpl; [destruct uc as [d|]; simpl|]];
    destruct (String.eqb (format args) "fasta"); simpl;
    eexists; (split; [repeat rewrite <- app_assoc; simpl; reflexivity|]);
    repeat constructor.
Qed.

(** [ssr_native] returns normally exactly when the format is 'fasta' and a
    cutoff can be used: a true [length_cutoff] with [args.min_length] set,
    or else a non-empty [unit_cutoff]. *)
Theorem ssr_native_returns_iff (args : Args) lc uc (s : State) :
  fst (ssr_native args lc uc s) = Ok tt
  <-> format args = "fasta"
      /\ ((truthy_opt_int lc = true /\ min_length args <> None)
          \/ (truthy_opt_int lc = false /\ truthy_dict uc = true)).
Proof.
  unfold ssr_native, fmt_length_cutoff, load_global.
  rewrite input_format_unbound. run_monad.
  destruct (String.eqb_spec (format args) "fasta") as [Hf|Hf].
  - destruct (truthy_opt_int lc); simpl.
    + destruct (min_length args) as [l|]; simpl.
      * split; [intros _; split; [exact Hf | left; split; [reflexivity | discriminate]]
               | reflexivity].
      * split; [discriminate | intros (_ & [[_ H] | [H _]]); [contradiction | discriminate]].
    + destruct (truthy_dict uc) eqn:Huc; simpl.
      * destruct uc as [d|]; [|discriminate]. simpl.
        split; [intros _; split; [exact Hf | right; split; reflexivity] | reflexivity].
      * split; [discriminate | intros (_ & [[H _] | [_ H]]); discriminate].
  - destruct (truthy_opt_int lc); simpl;
      [destruct (min_length args); simpl
      |destruct (truthy_dict uc); simpl; [destruct uc; simpl|]];
      (split; [discriminate | intros [H _]; contradiction]).
Qed.

(** Called with no usable cutoff (both parameters false: the defaults, a
    zero length or an empty table), [ssr_native] builds nothing and writes
    nothing: it raises [UnboundLocalError] for [repeats_info] when the
    format is 'fasta', and [NameError] otherwise. *)
Theorem ssr_native_without_cutoff (args : Args) lc uc (s : State) :
  truthy_opt_int lc = false ->
  truthy_dict uc = false ->
  ssr_native args lc uc s
  = (Raise (if String.eqb (format args) "fasta"
            then UnboundLocalError "repeats_info"
            else NameError "input_format"),
     add_log [Call_ssr_native args lc uc] s).
Proof.
  intros Hlc Huc. unfold ssr_native, load_global, add_log.
  rewrite input_format_unbound, Hlc, Huc. run_monad.
  destruct (String.eqb (format args) "fasta"); reflexivity.
Qed.

Lemma ssr_native_without_cutoff_witness :
  ssr_native default_args None (Some ∅) (start default_args)
  = (Raise (UnboundLocalError "repeats_info"),
     add_log [Call_ssr_native default_args None (Some ∅)] (start default_args)).
Proof.
  apply (ssr_native_without_cutoff default_args None (Some ∅) (start default_args));
    reflexivity.
Defined.

(** A true [length_cutoff] only selects the mode: the table is built from
    [args.min_length], whatever value the parameter has, and [unit_cutoff]
    is not looked at. *)
Theorem ssr_native_length_mode_reads_args (args : Args) lc uc (s : State) :
  truthy_opt_int lc = true ->
  exists evs,
    st_log (snd (ssr_native args lc uc s)) = st_log s ++ evs
    /\ calls build_rep_set_call evs = [InfoLength (repeats args) (min_length args)]
    /\ (forall lc' uc',
           truthy_opt_int lc' = true ->
           fst (ssr_native args lc' uc' s) = fst (ssr_native args lc uc s)
           /\ calls build_rep_set_call (st_log (snd (ssr_native args lc' uc' s)))
              = calls build_rep_set_call (st_log (snd (ssr_native args lc uc s)))).
Proof.
  intros Hlc. unfold ssr_native, fmt_length_cutoff, load_global.
  rewrite input_format_unbound, Hlc. run_monad.
  destruct (min_length args) as [l|]; simpl;
    destruct (String.eqb (format args) "fasta"); simpl;
    eexists; (split; [repeat rewrite <- app_assoc; simpl; reflexivity|]);
    (split; [reflexivity|]); intros lc' uc' ->; simpl;
    (split; [reflexivity|]); rewrite !calls_app; reflexivity.
Qed.

(** [-l 5] handed over while [args.min_length] is 20. *)
Lemma ssr_native_length_mode_reads_args_witness :
  exists evs,
    st_log (snd (ssr_native (set_min_length (Some 20) default_args) (Some 5) None
                   (start default_args)))
    = st_log (start default_args) ++ evs
    /\ calls build_rep_set_call evs = [InfoLength None (Some 20)].
Proof.
  destruct (ssr_native_length_mode_reads_args (set_min_length (Some 20) default_args)
              (Some 5) None (start default_args) eq_refl) as (evs & Hlog & Hb & _).
  exists evs. split; [exact Hlog | exact Hb].
Defined.

(** [ssr_native] never calls [fastq_ssrs], never calls [generate_repeats],
    [annotate] or [analyse], and leaves [args] as it is, for every namespace
    and every pair of cutoffs. *)
Theorem ssr_native_never_calls_fastq_ssrs (args : Args) lc uc (s : State) :
  st_args (snd (ssr_native args lc uc s)) = st_args s
  /\ calls fastq_ssrs_call (st_log (snd (ssr_native args lc uc s)))
     = calls fastq_ssrs_call (st_log s)
  /\ calls generate_repeats_call (st_log (snd (ssr_native args lc uc s)))
     = calls generate_repeats_call (st_log s)
  /\ List.filter is_report_event (st_log (snd (ssr_native args lc uc s)))
     = List.filter is_report_event (st_log s).
Proof.
  destruct (ssr_native_kinds args lc uc s) as (evs & -> & Hevs).
  unfold add_log; simpl. rewrite !calls_app, List.filter_app.
  assert (H1 : calls fastq_ssrs_call evs = []).
  { apply calls_none. eapply Forall_impl; [exact Hevs|].
    intros [] He; simpl in *; try reflexivity; discriminate. }
  assert (H2 : calls generate_repeats_call evs = []).
  { apply calls_none. eapply Forall_impl; [exact Hevs|].
    intros [] He; simpl in *; try reflexivity; discriminate. }
  assert (H3 : List.filter is_report_event evs = []).
  { clear H1 H2. induction Hevs as [|e evs He _ IH]; simpl; [reflexivity|].
    destruct e; simpl in *; try discriminate; exact IH. }
  rewrite H1, H2, H3, !app_nil_r. repeat split; reflexivity.
Qed.


(** ** main: the state at the dispatch, and the reports *)

Lemma report_step_spec (s : State) :
  report_step s = (Ok tt, add_log (report_events (st_args s)) s).
Proof.
  unfold report_step, report_events, add_log. run_monad.
  destruct (annotate (st_args s)); simpl; destruct (analyse (st_args s)); simpl;
    rewrite <- ?app_assoc, ?app_nil_r; try reflexivity.
  destruct s; reflexivity.
Qed.

Lemma prelude_run (parsed : Args) :
  accepted parsed ->
  (getArgs ;; catalog_step) (start parsed) = (Ok tt, dispatch_state parsed).
Proof.
  intros Hacc. apply getArgs_accepted_iff in Hacc.
  destruct parsed as [inp fmt out rep ana ann mn mx atomic ml mu]. simpl in Hacc.
  unfold getArgs, catalog_step, start, dispatch_state, args_at_dispatch,
    args_after_getArgs, catalog_log; run_monad.
  destruct Hacc as [-> | [-> ->]]; simpl.
  - destruct (bool_decide (output_name out = Some "<stdout>")); reflexivity.
  - destruct rep; simpl;
      destruct (bool_decide (output_name out = Some "<stdout>")); reflexivity.
Qed.

Lemma run_from_dispatch (fs : FileSystem) (parsed : Args) :
  accepted parsed ->
  run fs parsed = (cutoff_step fs ;; report_step) (dispatch_state parsed).
Proof.
  intros Hacc. unfold run. rewrite main_steps. unfold bind at 1.
  rewrite (prelude_run parsed Hacc). reflexivity.
Qed.

(** The options [main] looks at from line 116 on are those [parse_args]
    returned. *)
Lemma args_at_dispatch_fields (parsed : Args) :
  min_length (args_at_dispatch parsed) = min_length parsed
  /\ min_units (args_at_dispatch parsed) = min_units parsed
  /\ format (args_at_dispatch parsed) = format parsed
  /\ annotate (args_at_dispatch parsed) = annotate parsed
  /\ analyse (args_at_dispatch parsed) = analyse parsed.
Proof.
  destruct parsed as [inp fmt out rep ana ann mn mx atomic ml mu].
  unfold args_at_dispatch, args_after_getArgs; simpl.
  destruct (bool_decide (output_name out = Some "<stdout>")); simpl;
    destruct rep; simpl; repeat split; reflexivity.
Qed.

Lemma scan_length_mode (a : Args) (l : Z) (s : State) :
  min_length a = Some l ->
  l <> 0 ->
  st_args s = a ->
  (ssr_native a (Some l) None ;; report_step) s
  = (scan_outcome a, add_log (length_mode_events a l) s).
Proof.
  intros Hl Hne Hs. subst a. unfold bind.
  assert (Ht : truthy_opt_int (Some l) = true).
  { unfold truthy_opt_int, truthy_int. destruct (Z.eqb_spec l 0); [contradiction | reflexivity]. }
  unfold ssr_native, fmt_length_cutoff, load_global, scan_outcome, length_mode_events.
  rewrite input_format_unbound, Ht, Hl. run_monad.
  destruct (String.eqb (format (st_args s)) "fasta"); simpl.
  - rewrite report_step_spec. unfold add_log; simpl.
    rewrite <- !app_assoc. reflexivity.
  - unfold add_log. rewrite <- !app_assoc. reflexivity.
Qed.

Lemma scan_unit_mode (a : Args) (d : gmap Z Z) (s : State) :
  truthy_dict (Some d) = true ->
  st_args s = a ->
  (ssr_native a None (Some d) ;; report_step) s
  = (scan_outcome a, add_log (unit_mode_events a d) s).
Proof.
  intros Hd Hs. subst a. unfold bind.
  unfold ssr_native, load_global, scan_outcome, unit_mode_events, unit_cutoff_line.
  rewrite input_format_unbound, Hd. run_monad.
  destruct (String.eqb (format (st_args s)) "fasta"); simpl.
  - rewrite report_step_spec. unfold add_log; simpl.
    rewrite <- !app_assoc. reflexivity.
  - unfold add_log. rewrite <- !app_assoc. reflexivity.
Qed.

Lemma cutoff_step_length fs (s : State) (l : Z) :
  min_length (st_args s) = Some l ->
  l <> 0 ->
  cutoff_step fs s = ssr_native (st_args s) (Some l) None s.
Proof.
  intros Hl Hne. unfold cutoff_step, bind, get_args. rewrite Hl.
  unfold truthy_opt_int, truthy_int. destruct (Z.eqb_spec l 0); [contradiction | reflexivity].
Qed.

(** ** main in length mode *)

(** With a non-zero --min-length (negative values included: nothing checks
    the sign), the whole run is determined by the options: one call of
    [ssr_native] with that length, the table built for it, one line on
    stderr, then the FASTA scan and the reports when the format is 'fasta',
    and a [NameError] otherwise.  The value of --min-units and the file
    system play no part: a units file is never opened. *)
Theorem main_length_mode_trace (fs : FileSystem) (parsed : Args) (l : Z) :
  accepted parsed ->
  min_length parsed = Some l ->
  l <> 0 ->
  outcome fs parsed = scan_outcome parsed
  /\ log_of fs parsed
     = catalog_log parsed ++ length_mode_events (args_at_dispatch parsed) l
  /\ final_args fs parsed = args_at_dispatch parsed.
Proof.
  intros Hacc Hl Hne.
  destruct (args_at_dispatch_fields parsed) as (Hl' & _ & Hf & _).
  rewrite Hl in Hl'.
  assert (Hrun : run fs parsed
                 = (scan_outcome (args_at_dispatch parsed),
                    add_log (length_mode_events (args_at_dispatch parsed) l)
                      (dispatch_state parsed))).
  { rewrite (run_from_dispatch fs parsed Hacc). unfold bind at 1.
    rewrite (cutoff_step_length fs (dispatch_state parsed) l Hl' Hne).
    apply (scan_length_mode (args_at_dispatch parsed) l (dispatch_state parsed) Hl' Hne).
    reflexivity. }
  unfold outcome, log_of, final_args. rewrite Hrun. simpl.
  unfold scan_outcome. rewrite Hf. repeat split; reflexivity.
Qed.

Lemma main_length_mode_trace_witness :
  outcome no_files (set_min_length (Some (-5)) units_args) = Ok tt
  /\ log_of no_files (set_min_length (Some (-5)) units_args)
     = catalog_log (set_min_length (Some (-5)) units_args)
       ++ length_mode_events (args_at_dispatch (set_min_length (Some (-5)) units_args)) (-5)
  /\ final_args no_files (set_min_length (Some (-5)) units_args)
     = args_at_dispatch (set_min_length (Some (-5)) units_args).
Proof.
  apply (main_length_mode_trace no_files (set_min_length (Some (-5)) units_args) (-5));
    [reflexivity | reflexivity | discriminate].
Defined.

(** ** main with the default cutoff *)

(** With neither cutoff given, the run completes exactly when the format is
    'fasta': its trace is that of length mode for the length 12, on the
    namespace in which [min_length] has been set to 12; any other format
    ends in [NameError] after the table has been built. *)
Theorem main_default_mode_trace (fs : FileSystem) (parsed : Args) :
  accepted parsed ->
  min_length parsed = None ->
  min_units parsed = None ->
  outcome fs parsed = scan_outcome parsed
  /\ log_of fs parsed
     = catalog_log parsed
       ++ length_mode_events (set_min_length (Some 12) (args_at_dispatch parsed)) 12
  /\ final_args fs parsed = set_min_length (Some 12) (args_at_dispatch parsed).
Proof.
  intros Hacc Hl Hu.
  destruct (args_at_dispatch_fields parsed) as (Hl' & Hu' & Hf & _).
  rewrite Hl in Hl'. rewrite Hu in Hu'.
  set (a := set_min_length (Some 12) (args_at_dispatch parsed)).
  set (s := {| st_args := a; st_log := catalog_log parsed |}).
  assert (Hrun : run fs parsed = (scan_outcome a, add_log (length_mode_events a 12) s)).
  { rewrite (run_from_dispatch fs parsed Hacc).
    rewrite <- (scan_length_mode a 12 s eq_refl) by (discriminate || reflexivity).
    unfold bind at 1. unfold cutoff_step, bind at 1, get_args at 1. simpl.
    rewrite Hl', Hu'. reflexivity. }
  unfold outcome, log_of, final_args. rewrite Hrun. simpl.
  unfold scan_outcome. simpl. rewrite Hf. repeat split; reflexivity.
Qed.

Lemma main_default_mode_trace_witness :
  outcome no_files default_args = Ok tt
  /\ log_of no_files default_args
     = catalog_log default_args
       ++ length_mode_events (set_min_length (Some 12) (args_at_dispatch default_args)) 12
  /\ final_args no_files default_args
     = set_min_length (Some 12) (args_at_dispatch default_args).
Proof.
  apply (main_default_mode_trace no_files default_args); reflexivity.
Defined.

(** ** main in unit mode *)

Lemma cutoff_step_units_ok fs (s : State) (u : Units) (d : gmap Z Z) (s' : State) :
  truthy_opt_int (min_length (st_args s)) = false ->
  min_units (st_args s) = Some u ->
  truthy_units (Some u) = true ->
  units_table fs u s = (Ok d, s') ->
  (cutoff_step fs ;; report_step) s
  = (ssr_native (st_args s') None (Some d) ;; report_step) s'.
Proof.
  intros Hl Hu Ht Htab. unfold bind at 1.
  unfold cutoff_step, bind at 1, get_args at 1. rewrite Hl, Hu, Ht.
  unfold bind at 1. rewrite Htab. reflexivity.
Qed.

(** A --min-units value that [int()] accepts is a scalar: the table is
    {0: z} for any integer z (zero and negative values included),
    [args.min_units] becomes that integer, and the run is the unit-mode
    trace for this table.  No file is opened: the file system plays no
    part. *)
Theorem main_scalar_units_trace (fs : FileSystem) (parsed : Args) (str : string) (z : Z) :
  accepted parsed ->
  truthy_opt_int (min_length parsed) = false ->
  min_units parsed = Some (UStr str) ->
  PyStr.int str = Some z ->
  outcome fs parsed = scan_outcome parsed
  /\ log_of fs parsed
     = catalog_log parsed
       ++ unit_mode_events (set_min_units (Some (UInt z)) (args_at_dispatch parsed))
            (<[0 := z]> ∅)
  /\ final_args fs parsed = set_min_units (Some (UInt z)) (args_at_dispatch parsed).
Proof.
  intros Hacc Hl Hu Hint.
  destruct (args_at_dispatch_fields parsed) as (Hl' & Hu' & Hf & _).
  rewrite <- Hl' in Hl. rewrite Hu in Hu'.
  set (a := set_min_units (Some (UInt z)) (args_at_dispatch parsed)).
  set (s := {| st_args := a; st_log := catalog_log parsed |}).
  assert (Hrun : run fs parsed
                 = (scan_outcome a, add_log (unit_mode_events a (<[0 := z]> ∅)) s)).
  { rewrite (run_from_dispatch fs parsed Hacc).
    rewrite (cutoff_step_units_ok fs (dispatch_state parsed) (UStr str) (<[0 := z]> ∅) s
               Hl Hu').
    - apply scan_unit_mode; [apply truthy_dict_insert | reflexivity].
    - destruct str; [discriminate | reflexivity].
    - apply (units_table_scalar fs str z (dispatch_state parsed) Hint). }
  unfold outcome, log_of, final_args. rewrite Hrun. simpl.
  unfold scan_outcome. simpl. rewrite Hf. repeat split; reflexivity.
Qed.

Lemma main_scalar_units_trace_witness :
  outcome no_files (set_min_units (Some (UStr "-3")) default_args) = Ok tt
  /\ log_of no_files (set_min_units (Some (UStr "-3")) default_args)
     = catalog_log (set_min_units (Some (UStr "-3")) default_args)
       ++ unit_mode_events
            (set_min_units (Some (UInt (-3)))
               (args_at_dispatch (set_min_units (Some (UStr "-3")) default_args)))
            (<[0 := -3]> ∅)
  /\ final_args no_files (set_min_units (Some (UStr "-3")) default_args)
     = set_min_units (Some (UInt (-3)))
         (args_at_dispatch (set_min_units (Some (UStr "-3")) default_args)).
Proof.
  apply (main_scalar_units_trace no_files (set_min_units (Some (UStr "-3")) default_args)
           "-3" (-3)); reflexivity.
Defined.

(** ** main when no branch of the dispatch applies *)

(** When both cutoff options are false without both being [None] (a zero
    --min-length, an empty --min-units, or both), none of the three branches
    runs: the run completes with the catalog step and the reports only, and
    the options are left as they are. *)
Theorem main_no_branch_trace (fs : FileSystem) (parsed : Args) :
  accepted parsed ->
  truthy_opt_int (min_length parsed) = false ->
  truthy_units (min_units parsed) = false ->
  min_length parsed <> None \/ min_units parsed <> None ->
  outcome fs parsed = Ok tt
  /\ log_of fs parsed = catalog_log parsed ++ report_events (args_at_dispatch parsed)
  /\ final_args fs parsed = args_at_dispatch parsed.
Proof.
  intros Hacc Hl Hu Hnone.
  destruct (args_at_dispatch_fields parsed) as (Hl' & Hu' & _).
  assert (Hrun : run fs parsed
                 = (Ok tt, add_log (report_events (args_at_dispatch parsed))
                             (dispatch_state parsed))).
  { rewrite (run_from_dispatch fs parsed Hacc). unfold bind at 1.
    unfold cutoff_step, bind at 1, get_args at 1. simpl.
    rewrite Hl', Hu', Hl, Hu.
    assert (Hb : bool_decide (min_length parsed = None)
                 && bool_decide (min_units parsed = None) = false).
    { destruct Hnone as [H|H].
      - rewrite (bool_decide_eq_false_2 _ H). reflexivity.
      - rewrite (bool_decide_eq_false_2 _ H). apply andb_false_r. }
    rewrite Hb. run_monad. apply report_step_spec. }
  unfold outcome, log_of, final_args. rewrite Hrun. repeat split; reflexivity.
Qed.

(** [perf -i genome.fa -u ""] *)
Lemma main_no_branch_trace_witness :
  outcome no_files (set_min_units (Some (UStr "")) default_args) = Ok tt
  /\ log_of no_files (set_min_units (Some (UStr "")) default_args)
     = catalog_log (set_min_units (Some (UStr "")) default_args)
       ++ report_events (args_at_dispatch (set_min_units (Some (UStr "")) default_args))
  /\ final_args no_files (set_min_units (Some (UStr "")) default_args)
     = args_at_dispatch (set_min_units (Some (UStr "")) default_args).
Proof.
  apply (main_no_branch_trace no_files (set_min_units (Some (UStr "")) default_args));
    [reflexivity | reflexivity | reflexivity | right; discriminate].
Defined.

(** ** main on a units file *)

Lemma fold_insert_non_empty (ents : list (Z * Z)) :
  forall d : gmap Z Z, d <> ∅ -> fold_left insert_entry ents d <> ∅.
Proof.
  induction ents as [|kv ents IH]; intros d Hd; simpl; [exact Hd|].
  apply IH. unfold insert_entry. apply insert_non_empty.
Qed.

Lemma units_table_non_empty (lines : list string) :
  Forall (fun l => is_Some (entry l)) lines ->
  lines <> [] ->
  truthy_dict (Some (fold_left insert_entry (omap entry lines) ∅)) = true.
Proof.
  intros Hwf Hne. unfold truthy_dict. rewrite bool_decide_eq_false_2; [reflexivity|].
  destruct lines as [|line lines]; [contradiction|].
  inversion Hwf as [|? ? [kv Hline] _]; subst. simpl. rewrite Hline. simpl.
  apply fold_insert_non_empty. unfold insert_entry. apply insert_non_empty.
Qed.

(** The run on a units file, up to the end of the loop over its lines. *)
Lemma run_units_file (fs : FileSystem) (parsed : Args) (path : string) (lines : list string) :
  accepted parsed ->
  truthy_opt_int (min_length parsed) = false ->
  min_units parsed = Some (UStr path) ->
  path <> "" ->
  PyStr.int path = None ->
  fs path = Some lines ->
  run fs parsed
  = match units_lines lines ∅ (dispatch_state parsed) with
    | (Ok d, s') => (ssr_native (st_args s') None (Some d) ;; report_step) s'
    | (Raise e, s') => (Raise e, s')
    end.
Proof.
  intros Hacc Hl Hu Hne Hint Hfs.
  destruct (args_at_dispatch_fields parsed) as (Hl' & Hu' & _).
  rewrite <- Hl' in Hl. rewrite Hu in Hu'.
  assert (Ht : truthy_units (Some (UStr path)) = true)
    by (destruct path; [contradiction | reflexivity]).
  change (args_at_dispatch parsed) with (st_args (dispatch_state parsed)) in Hl, Hu'.
  rewrite (run_from_dispatch fs parsed Hacc).
  pose proof (units_table_file fs path (dispatch_state parsed) Hint) as Htab.
  rewrite Hfs in Htab.
  destruct (units_lines lines ∅ (dispatch_state parsed)) as [[d|e] s'] eqn:E.
  - apply (cutoff_step_units_ok fs (dispatch_state parsed) (UStr path) d s' Hl Hu' Ht Htab).
  - unfold bind at 1. unfold cutoff_step, bind at 1, get_args at 1.
    rewrite Hl, Hu', Ht. unfold bind at 1. rewrite Htab. reflexivity.
Qed.

(** An empty units file gives an empty table, which [ssr_native] takes for
    no cutoff at all: the run ends in [UnboundLocalError] (format 'fasta')
    or [NameError] (any other format) right after the call of [ssr_native];
    no table is built and nothing is scanned. *)
Theorem main_empty_units_file (fs : FileSystem) (parsed : Args) (path : string) :
  accepted parsed ->
  truthy_opt_int (min_length parsed) = false ->
  min_units parsed = Some (UStr path) ->
  path <> "" ->
  PyStr.int path = None ->
  fs path = Some [] ->
  outcome fs parsed
  = Raise (if String.eqb (format parsed) "fasta"
           then UnboundLocalError "repeats_info"
           else NameError "input_format")
  /\ log_of fs parsed
     = catalog_log parsed ++ [Call_ssr_native (args_at_dispatch parsed) None (Some ∅)].
Proof.
  intros Hacc Hl Hu Hne Hint Hfs.
  destruct (args_at_dispatch_fields parsed) as (_ & _ & Hf & _).
  unfold outcome, log_of.
  rewrite (run_units_file fs parsed path [] Hacc Hl Hu Hne Hint Hfs). simpl.
  unfold bind, ssr_native, load_global. rewrite input_format_unbound. run_monad.
  rewrite Hf. destruct (String.eqb (format parsed) "fasta"); split; reflexivity.
Qed.

Lemma main_empty_units_file_witness :
  outcome empty_units_fs units_args = Raise (UnboundLocalError "repeats_info")
  /\ log_of empty_units_fs units_args
     = catalog_log units_args
       ++ [Call_ssr_native (args_at_dispatch units_args) None (Some ∅)].
Proof.
  apply (main_empty_units_file empty_units_fs units_args "units.txt");
    try reflexivity; discriminate.
Defined.

(** The trace of a run on a non-empty units file all of whose lines are well
    formed: the warnings of the lines whose value is 1, in file order, then
    the unit-mode trace for the table of the file. *)
Theorem main_units_file_trace
    (fs : FileSystem) (parsed : Args) (path : string) (lines : list string) :
  accepted parsed ->
  truthy_opt_int (min_length parsed) = false ->
  min_units parsed = Some (UStr path) ->
  path <> "" ->
  PyStr.int path = None ->
  fs path = Some lines ->
  Forall (fun l => is_Some (entry l)) lines ->
  lines <> [] ->
  outcome fs parsed = scan_outcome parsed
  /\ log_of fs parsed
     = catalog_log parsed
       ++ (unit_warning <$> sizes_of_one (omap entry lines))
       ++ unit_mode_events (args_at_dispatch parsed)
            (fold_left insert_entry (omap entry lines) ∅)
  /\ final_args fs parsed = args_at_dispatch parsed.
Proof.
  intros Hacc Hl Hu Hne Hint Hfs Hwf Hlines.
  destruct (args_at_dispatch_fields parsed) as (_ & _ & Hf & _).
  assert (Hw : flat_map entry_warning (omap entry lines)
               = unit_warning <$> sizes_of_one (omap entry lines)).
  { unfold sizes_of_one. induction (omap entry lines) as [|[k v] ents IH]; [reflexivity|].
    simpl. unfold entry_warning at 1. simpl. destruct (v =? 1); simpl; rewrite IH; reflexivity. }
  unfold outcome, log_of, final_args.
  rewrite (run_units_file fs parsed path lines Hacc Hl Hu Hne Hint Hfs).
  rewrite (units_lines_well_formed lines ∅ _ Hwf).
  simpl (st_args (add_log _ _)).
  rewrite (scan_unit_mode (args_at_dispatch parsed) _
             (add_log (flat_map entry_warning (omap entry lines)) (dispatch_state parsed))
             (units_table_non_empty lines Hwf Hlines) eq_refl).
  simpl. unfold scan_outcome. rewrite Hf, Hw, <- app_assoc. repeat split; reflexivity.
Qed.

Lemma main_units_file_trace_witness :
  outcome one_unit_fs units_args = Ok tt
  /\ log_of one_unit_fs units_args
     = catalog_log units_args
       ++ (unit_warning <$> sizes_of_one (omap entry ["2 1"]))
       ++ unit_mode_events (args_at_dispatch units_args)
            (fold_left insert_entry (omap entry ["2 1"]) ∅)
  /\ final_args one_unit_fs units_args = args_at_dispatch units_args.
Proof.
  apply (main_units_file_trace one_unit_fs units_args "units.txt" ["2 1"]);
    try reflexivity; try discriminate.
  repeat constructor. eexists; reflexivity.
Defined.

(** The first line that is not a well-formed entry ends the run: by the
    'Invalid file format' exit when it has a non-integer field, by
    [IndexError] when it runs out of fields.  The warnings of the lines
    before it have been written by then; the lines after it are not
    looked at, and nothing else has happened. *)
Theorem main_units_file_first_failure
    (fs : FileSystem) (parsed : Args) (path : string)
    (pre : list string) (bad : string) (post : list string) (e : Exn) :
  accepted parsed ->
  truthy_opt_int (min_length parsed) = false ->
  min_units parsed = Some (UStr path) ->
  path <> "" ->
  PyStr.int path = None ->
  fs path = Some (pre ++ bad :: post) ->
  Forall (fun l => is_Some (entry l)) pre ->
  (non_integer_line bad /\ e = SystemExit invalid_units_msg)
  \/ (index_error_line bad /\ e = IndexError) ->
  outcome fs parsed = Raise e
  /\ log_of fs parsed
     = catalog_log parsed ++ (unit_warning <$> sizes_of_one (omap entry pre))
  /\ final_args fs parsed = args_at_dispatch parsed.
Proof.
  intros Hacc Hl Hu Hne Hint Hfs Hwf Hbad.
  assert (Hw : flat_map entry_warning (omap entry pre)
               = unit_warning <$> sizes_of_one (omap entry pre)).
  { unfold sizes_of_one. induction (omap entry pre) as [|[k v] ents IH]; [reflexivity|].
    simpl. unfold entry_warning at 1. simpl. destruct (v =? 1); simpl; rewrite IH; reflexivity. }
  unfold outcome, log_of, final_args.
  rewrite (run_units_file fs parsed path _ Hacc Hl Hu Hne Hint Hfs).
  rewrite (units_lines_entries pre (omap entry pre) (bad :: post) ∅ _
             (well_formed_entries pre Hwf)).
  simpl. unfold bind.
  destruct Hbad as [[Hb ->] | [Hb ->]].
  - rewrite (units_line_non_integer _ _ _ Hb). simpl. rewrite Hw. repeat split; reflexivity.
  - rewrite (units_line_index_error _ _ _ Hb). simpl. rewrite Hw. repeat split; reflexivity.
Qed.

Lemma main_units_file_first_failure_witness :
  outcome late_failure_fs units_args = Raise (SystemExit invalid_units_msg)
  /\ log_of late_failure_fs units_args
     = catalog_log units_args
       ++ (unit_warning <$> sizes_of_one (omap entry ["1 1"; "2 4"; "3 1"]))
  /\ final_args late_failure_fs units_args = args_at_dispatch units_args.
Proof.
  apply (main_units_file_first_failure late_failure_fs units_args "units.txt"
           ["1 1"; "2 4"; "3 1"] "4 four" [""]);
    try reflexivity; try discriminate.
  - repeat constructor; eexists; reflexivity.
  - left. split; [|reflexivity]. simpl. right. reflexivity.
Defined.

(** ** The table of a units file: which sizes it has *)

Lemma fold_insert_lookup_none (k : Z) (ents : list (Z * Z)) :
  forall d : gmap Z Z,
    fold_left insert_entry ents d !! k = None
    <-> d !! k = None /\ Forall (fun kv => fst kv <> k) ents.
Proof.
  induction ents as [|[k' v'] ents IH]; intros d; simpl.
  - split; [intros H; split; [exact H | constructor] | intros [H _]; exact H].
  - rewrite IH. unfold insert_entry; simpl. split.
    + intros [Hd Hents]. destruct (decide (k' = k)) as [->|Hk].
      * rewrite lookup_insert_eq in Hd. discriminate.
      * rewrite lookup_insert_ne in Hd by exact Hk.
        split; [exact Hd | constructor; [exact Hk | exact Hents]].
    + intros [Hd Hents]. inversion Hents as [|? ? Hk Hrest]; subst. simpl in Hk.
      split; [rewrite lookup_insert_ne by exact Hk; exact Hd | exact Hrest].
Qed.

(** The table of a well-formed units file holds the sizes its lines give
    and no other: a size that no line gives has no entry (there is no
    default, and no key 0 as in the scalar case). *)
Theorem units_table_has_listed_sizes_only
    (fs : FileSystem) (parsed : Args) (path : string) (lines : list string) :
  accepted parsed ->
  min_length parsed = None ->
  min_units parsed = Some (UStr path) ->
  path <> "" ->
  PyStr.int path = None ->
  fs path = Some lines ->
  Forall (fun l => is_Some (entry l)) lines ->
  exists a d,
    calls ssr_native_call (log_of fs parsed) = [(a, None, Some d)]
    /\ forall k, d !! k = None <-> Forall (fun l => forall v, entry l <> Some (k, v)) lines.
Proof.
  intros Hacc Hl Hu Hne Hint Hfs Hwf.
  destruct (main_units_file_well_formed fs parsed path lines Hacc Hl Hu Hne Hint Hfs Hwf)
    as ((a & Hcalls) & _).
  exists a. eexists. split; [exact Hcalls|].
  intros k. rewrite fold_insert_lookup_none. rewrite lookup_empty.
  clear -Hwf. induction Hwf as [|line lines [[k' v'] Hline] _ IH]; simpl.
  - split; [intros _; constructor | intros _; split; [reflexivity | constructor]].
  - rewrite Hline. simpl. split.
    + intros [_ H]. inversion H as [|? ? Hk Hrest]; subst. simpl in Hk.
      constructor; [intros v Hv; inversion Hv; subst; congruence|].
      apply IH. split; [reflexivity | exact Hrest].
    + intros H. inversion H as [|? ? Hk Hrest]; subst.
      split; [reflexivity|]. constructor.
      * simpl. intros ->. apply (Hk v'). exact Hline.
      * apply IH; exact Hrest.
Qed.

Lemma units_table_has_listed_sizes_only_witness :
  exists a d,
    calls ssr_native_call (log_of duplicate_size_fs units_args) = [(a, None, Some d)]
    /\ forall k, d !! k = None
                 <-> Forall (fun l => forall v, entry l <> Some (k, v))
                       ["1 12"; "2 10"; "3 5"; "2 4"; "4 3"].
Proof.
  apply (units_table_has_listed_sizes_only duplicate_size_fs units_args "units.txt");
    try reflexivity; [discriminate|].
  repeat constructor; eexists; reflexivity.
Defined.

(** ** What main never does *)

Section MainEffects.

Variable I : Args -> Prop.
Variable P : Event -> Prop.

Hypothesis output_free : forall a o, I a -> I (set_output o a).
Hypothesis repeats_free : forall a r, I a -> I (set_repeats r a).
Hypothesis units_free : forall a u, I a -> I (set_min_units u a).
Hypothesis length_free : forall a l, I a -> I (set_min_length l a).
Hypothesis scan_events :
  forall e, fastq_ssrs_call e = None -> is_report_event e = false -> P e.

Lemma respects_ssr_native_kinds args lc uc : respects I P (ssr_native args lc uc).
Proof.
  intros s Hs. destruct (ssr_native_kinds args lc uc s) as (evs & Hsnd & Hevs).
  exists evs. rewrite Hsnd. simpl. split; [reflexivity|]. split; [exact Hs|].
  eapply Forall_impl; [exact Hevs|].
  intros e He. apply scan_events; destruct e; simpl in *; try reflexivity; discriminate.
Qed.

Lemma respects_getArgs : respects I P getArgs.
Proof.
  unfold getArgs. apply respects_get_args; intros a Ha.
  apply respects_bind.
  - destruct (_ && _); [apply respects_raise | apply respects_ret].
  - intros _. destruct (bool_decide _); [|apply respects_ret].
    apply respects_modify. intros a' Ha'. apply output_free; exact Ha'.
Qed.

Lemma respects_catalog_step : respects I P catalog_step.
Proof.
  unfold catalog_step. apply respects_get_args; intros a Ha.
  destruct (repeats a); [apply respects_ret|].
  apply respects_bind.
  - unfold generate_repeats. apply respects_bind; [|intros _; apply respects_ret].
    apply respects_emit. apply scan_events; reflexivity.
  - intros r. apply respects_modify. intros a' Ha'. apply repeats_free; exact Ha'.
Qed.

Lemma respects_cutoff_step_kinds fs : respects I P (cutoff_step fs).
Proof.
  unfold cutoff_step. apply respects_get_args; intros a Ha.
  destruct (truthy_opt_int (min_length a)); [apply respects_ssr_native_kinds|].
  destruct (truthy_units (min_units a)).
  - destruct (min_units a) as [u|]; [|apply respects_ret].
    apply respects_bind.
    + apply respects_units_table.
      * intros k. apply scan_events; reflexivity.
      * intros a' u' Ha'. apply units_free; exact Ha'.
    + intros d. apply respects_get_args; intros a' Ha'.
      apply respects_ssr_native_kinds.
  - destruct (_ && _); [|apply respects_ret].
    apply respects_bind.
    + apply respects_modify. intros a' Ha'. apply length_free; exact Ha'.
    + intros _. apply respects_get_args; intros a' Ha'.
      apply respects_ssr_native_kinds.
Qed.

Lemma respects_before_reports fs :
  respects I P ((getArgs ;; catalog_step) ;; cutoff_step fs).
Proof.
  apply respects_bind.
  - apply respects_bind; [apply respects_getArgs | intros _; apply respects_catalog_step].
  - intros _. apply respects_cutoff_step_kinds.
Qed.

Lemma respects_main fs :
  (forall a, P (Call_annotate a)) ->
  (forall a, P (Call_analyse a)) ->
  respects I P (main fs).
Proof.
  intros Hann Hana s Hs. rewrite main_steps. revert s Hs.
  apply respects_bind.
  - apply respects_bind; [apply respects_getArgs | intros _; apply respects_catalog_step].
  - intros _. apply respects_bind; [apply respects_cutoff_step_kinds|].
    intros _. apply respects_report_step; assumption.
Qed.

End MainEffects.

(** Whatever the options and the file system, [main] never calls
    [fastq_ssrs]: the FASTQ path cannot be reached. *)
Theorem main_never_calls_fastq_ssrs (fs : FileSystem) (parsed : Args) :
  calls fastq_ssrs_call (log_of fs parsed) = [].
Proof.
  destruct (respects_main (fun _ => True) (fun e => fastq_ssrs_call e = None)
              (fun _ _ _ => I) (fun _ _ _ => I) (fun _ _ _ => I) (fun _ _ _ => I)
              (fun _ H _ => H) fs (fun _ => eq_refl) (fun _ => eq_refl)
              (start parsed) I) as (evs & Hlog & _ & Hevs).
  unfold log_of, run. rewrite Hlog. simpl. apply calls_none. exact Hevs.
Qed.

(** The options that [main] only reads stay what [parse_args] returned:
    whatever happens, the input, the format, the motif sizes, the atomic
    flag and the two report options are not modified. *)
Theorem main_keeps_read_only_options (fs : FileSystem) (parsed : Args) :
  let a := final_args fs parsed in
  input a = input parsed
  /\ format a = format parsed
  /\ min_motif_size a = min_motif_size parsed
  /\ max_motif_size a = max_motif_size parsed
  /\ include_atomic a = include_atomic parsed
  /\ annotate a = annotate parsed
  /\ analyse a = analyse parsed.
Proof.
  destruct (respects_main
              (fun a => input a = input parsed
                        /\ format a = format parsed
                        /\ min_motif_size a = min_motif_size parsed
                        /\ max_motif_size a = max_motif_size parsed
                        /\ include_atomic a = include_atomic parsed
                        /\ annotate a = annotate parsed
                        /\ analyse a = analyse parsed)
              (fun _ => True)
              (fun _ _ H => H) (fun _ _ H => H) (fun _ _ H => H) (fun _ _ H => H)
              (fun _ _ _ => I) fs (fun _ => I) (fun _ => I) (start parsed))
    as (evs & _ & Hargs & _).
  - simpl. repeat split; reflexivity.
  - exact Hargs.
Qed.


(** ** The reports *)

Lemma main_before_reports (fs : FileSystem) (s : State) :
  main fs s = (((getArgs ;; catalog_step) ;; cutoff_step fs) ;; report_step) s.
Proof. rewrite main_steps. symmetry. apply bind_assoc. Qed.

Lemma filter_report_events (a : Args) :
  List.filter is_report_event (report_events a) = report_events a.
Proof.
  unfold report_events. destruct (annotate a); destruct (analyse a); reflexivity.
Qed.

(** [annotate] and [analyse] are called only when the run got through the
    scan: when [main] ends normally, the calls are [annotate] (if
    --annotate was given, even as an empty string) and then [analyse] (if
    --analyse was given), each once and in this order; when it ends by an
    exception, whatever the exception, neither has been called. *)
Theorem main_reports_iff_completed (fs : FileSystem) (parsed : Args) :
  List.filter is_report_event (log_of fs parsed)
  = match outcome fs parsed with
    | Ok _ => report_events (final_args fs parsed)
    | Raise _ => []
    end.
Proof.
  destruct (respects_before_reports (fun _ => True) (fun e => is_report_event e = false)
              (fun _ _ _ => I) (fun _ _ _ => I) (fun _ _ _ => I) (fun _ _ _ => I)
              (fun _ _ H => H) fs (start parsed) I) as (evs & Hlog & _ & Hevs).
  assert (Hnone : List.filter is_report_event evs = []).
  { clear Hlog. induction Hevs as [|e evs He _ IH]; simpl; [reflexivity|].
    rewrite He. exact IH. }
  unfold log_of, outcome, final_args, run. rewrite !main_before_reports.
  set (m := (getArgs;; catalog_step);; cutoff_step fs) in *.
  unfold bind. destruct (m (start parsed)) as [[[]|e] s1]; simpl in Hlog.
  - rewrite report_step_spec. simpl. rewrite Hlog. simpl.
    rewrite List.filter_app, Hnone, filter_report_events. reflexivity.
  - simpl. rewrite Hlog. simpl. exact Hnone.
Qed.


(** ** One scan at most *)

Lemma scan_free_calls (evs : list Event) :
  Forall scan_free evs ->
  calls ssr_native_call evs = []
  /\ calls build_rep_set_call evs = []
  /\ calls fasta_ssrs_call evs = [].
Proof.
  intros H. repeat split; apply calls_none; (eapply Forall_impl; [exact H|]);
    intros e (H1 & H2 & H3); assumption.
Qed.

Lemma at_most_one_scan_app (l1 l2 : list Event) :
  Forall scan_free l1 -> at_most_one_scan l2 -> at_most_one_scan (l1 ++ l2).
Proof.
  intros H1 H2. destruct (scan_free_calls l1 H1) as (Ha & Hb & Hc).
  unfold at_most_one_scan. rewrite !calls_app, Ha, Hb, Hc. exact H2.
Qed.

Lemma at_most_one_scan_app_r (l1 l2 : list Event) :
  at_most_one_scan l1 -> Forall scan_free l2 -> at_most_one_scan (l1 ++ l2).
Proof.
  intros H1 H2. destruct (scan_free_calls l2 H2) as (Ha & Hb & Hc).
  unfold at_most_one_scan. rewrite !calls_app, Ha, Hb, Hc, !app_nil_r. exact H1.
Qed.

Lemma at_most_one_scan_free (l : list Event) : Forall scan_free l -> at_most_one_scan l.
Proof.
  intros H. destruct (scan_free_calls l H) as (Ha & Hb & Hc).
  unfold at_most_one_scan. rewrite Ha, Hb, Hc. simpl. lia.
Qed.

Lemma ssr_native_counts (args : Args) lc uc (s : State) :
  exists evs,
    snd (ssr_native args lc uc s) = add_log evs s /\ at_most_one_scan evs.
Proof.
  unfold ssr_native, fmt_length_cutoff, load_global, add_log, at_most_one_scan.
  rewrite input_format_unbound. run_monad.
  destruct (truthy_opt_int lc); simpl;
    [destruct (min_length args) as [l|]; simpl
    |destruct (truthy_dict uc); simpl; [destruct uc as [d|]; simpl|]];
    destruct (String.eqb (format args) "fasta"); simpl;
    eexists; (split; [repeat rewrite <- app_assoc; simpl; reflexivity|]);
    simpl; lia.
Qed.

Lemma cutoff_step_counts (fs : FileSystem) (s : State) :
  exists evs,
    st_log (snd (cutoff_step fs s)) = st_log s ++ evs /\ at_most_one_scan evs.
Proof.
  assert (Hssr : forall a lc uc s0, exists evs,
             st_log (snd (ssr_native a lc uc s0)) = st_log s0 ++ evs
             /\ at_most_one_scan evs).
  { intros a lc uc s0. destruct (ssr_native_counts a lc uc s0) as (evs & -> & H).
    exists evs. split; [reflexivity | exact H]. }
  unfold cutoff_step, bind at 1, get_args at 1.
  destruct (truthy_opt_int (min_length (st_args s))); [apply Hssr|].
  destruct (truthy_units (min_units (st_args s))).
  - destruct (min_units (st_args s)) as [u|].
    + destruct (respects_units_table (fun _ => True) scan_free
                  (fun k => conj eq_refl (conj eq_refl eq_refl)) (fun _ _ _ => I)
                  fs u s I) as (ws & Hws & _ & Hfree).
      unfold bind at 1. destruct (units_table fs u s) as [[d|e] s1]; simpl in Hws.
      * unfold bind, get_args. destruct (Hssr (st_args s1) None (Some d) s1) as (evs & -> & H).
        exists (ws ++ evs). rewrite Hws, app_assoc.
        split; [reflexivity | apply at_most_one_scan_app; assumption].
      * exists ws. simpl. split; [exact Hws | apply at_most_one_scan_free; exact Hfree].
    + exists []. simpl. rewrite app_nil_r. split; [reflexivity|].
      apply at_most_one_scan_free. constructor.
  - destruct (_ && _).
    + unfold bind, modify_args, get_args. simpl.
      match goal with |- context [ssr_native ?a ?lc ?uc ?s0] =>
        destruct (Hssr a lc uc s0) as (evs & -> & H) end.
      exists evs. split; [reflexivity | exact H].
    + exists []. simpl. rewrite app_nil_r. split; [reflexivity|].
      apply at_most_one_scan_free. constructor.
Qed.

Lemma prelude_scan_free : respects (fun _ => True) scan_free (getArgs ;; catalog_step).
Proof.
  apply respects_bind.
  - unfold getArgs. apply respects_get_args; intros a _.
    apply respects_bind.
    + destruct (_ && _); [apply respects_raise | apply respects_ret].
    + intros _. destruct (bool_decide _); [|apply respects_ret].
      apply respects_modify. intros; exact I.
  - intros _. unfold catalog_step. apply respects_get_args; intros a _.
    destruct (repeats a); [apply respects_ret|].
    apply respects_bind.
    + unfold generate_repeats. apply respects_bind; [|intros _; apply respects_ret].
      apply respects_emit. repeat split.
    + intros r. apply respects_modify. intros; exact I.
Qed.

(** Whatever the options and the file system, a run scans at most once:
    the log holds at most one call of [ssr_native], at most one of
    [build_rep_set] and at most one of [fasta_ssrs]. *)
Theorem main_scans_at_most_once (fs : FileSystem) (parsed : Args) :
  at_most_one_scan (log_of fs parsed).
Proof.
  destruct (prelude_scan_free (start parsed) I) as (evs0 & Hlog0 & _ & Hfree0).
  simpl in Hlog0.
  unfold log_of, run. rewrite main_steps.
  set (pre := getArgs;; catalog_step) in *.
  unfold bind at 1. destruct (pre (start parsed)) as [[[]|e] s1]; simpl in Hlog0.
  - destruct (cutoff_step_counts fs s1) as (evs1 & Hlog1 & Hone).
    unfold bind. destruct (cutoff_step fs s1) as [[[]|e] s2]; simpl in Hlog1.
    + rewrite report_step_spec. simpl. rewrite Hlog1, Hlog0.
      apply at_most_one_scan_app_r; [apply at_most_one_scan_app; assumption|].
      unfold report_events.
      destruct (annotate (st_args s2)); destruct (analyse (st_args s2));
        repeat constructor.
    + simpl. rewrite Hlog1, Hlog0. apply at_most_one_scan_app; assumption.
  - simpl. rewrite Hlog0. apply at_most_one_scan_free. exact Hfree0.
Qed.

(** ** Where the results go *)

(** When [getArgs] accepts the options, the results never go to standard
    output: an output whose name is "<stdout>" is replaced at line 77 by the
    file named after the input, an output file given with -o is kept, and
    nothing in [main] changes [args.output] afterwards, however the run
    ends. *)
Theorem main_output_is_a_file (fs : FileSystem) (parsed : Args) :
  accepted parsed ->
  output (final_args fs parsed) <> OutStdout
  /\ output (final_args fs parsed)
     = if bool_decide (output_name (output parsed) = Some "<stdout>")
       then OutPerfTsv (input parsed)
       else output parsed.
Proof.
  intros Hacc.
  assert (Hout : output (final_args fs parsed) = output (args_at_dispatch parsed)).
  { unfold final_args. rewrite (run_from_dispatch fs parsed Hacc).
    assert (Htail : respects (fun a => output a = output (args_at_dispatch parsed))
                      (fun _ => True) (cutoff_step fs ;; report_step)).
    { apply respects_bind.
      - apply respects_cutoff_step_kinds; [intros a u H; exact H | intros a l H; exact H|].
        intros; exact I.
      - intros _. apply respects_report_step; intros; exact I. }
    destruct (Htail (dispatch_state parsed) eq_refl) as (evs & _ & Hargs & _).
    exact Hargs. }
  rewrite Hout.
  destruct parsed as [inp fmt out rep ana ann mn mx atomic ml mu].
  unfold args_at_dispatch, args_after_getArgs; simpl.
  destruct (bool_decide (output_name out = Some "<stdout>")) eqn:E; simpl;
    destruct rep; simpl; (split; [|reflexivity]); try discriminate;
    intros ->; simpl in E; discriminate.
Qed.

Lemma main_output_is_a_file_witness :
  output (final_args no_files default_args) <> OutStdout
  /\ output (final_args no_files default_args)
     = if bool_decide (output_name (output default_args) = Some "<stdout>")
       then OutPerfTsv (input default_args)
       else output default_args.
Proof.
  apply (main_output_is_a_file no_files default_args). reflexivity.
Defined.


(** ** The catalog reaches build_rep_set *)









